(** * SolarDashboard: the refresh callback of the sunspot dashboard

    A shallow embedding of [SolarDashboard.py].  The module-level code loads
    the monthly sunspot table into the dataframe [df], builds the line figure
    [fig] and the folded scatter figure; the Dash callback [_refresh_plots]
    then mutates [fig] and [df] on every slider event and returns the two
    figures and the range label.

    - Floats are IEEE binary64 values ([spec_float] with [prec = 53] and
      [emax = 1024]).  The [%] of the fold is the remainder numpy computes
      for a [float64] scalar, which is what a row of [df.apply(..., axis=1)]
      holds: [fmod] followed by the sign adjustment, and NaN rather than an
      exception for a zero divisor.
    - The two shared objects [df] and [fig] form an explicit store, threaded
      through a small state-and-exception monad; a raised exception leaves
      the store as the statements before it made it.
    - What the callback returns is the value Dash serialises when the
      callback returns, so a returned figure is a snapshot of the store. *)

From Stdlib Require Import ZArith List String Ascii Bool Lia QArith Qpower.
From Stdlib Require Import SpecFloat DecimalString.
From Stdlib Require Import Sorted Lqa.
Import ListNotations.

Local Open Scope Z_scope.

(** ** Binary64 floats *)

Module F64.

Definition prec : Z := 53.
Definition emax : Z := 1024.

Definition float := spec_float.

Definition nan : float := S754_nan.
Definition pzero : float := S754_zero false.

(** Conversion of an integer, rounding to nearest even. *)
Definition of_Z (z : Z) : float := binary_normalize prec emax z 0 false.

Definition add : float -> float -> float := SFadd prec emax.
Definition div : float -> float -> float := SFdiv prec emax.
Definition isless : float -> float -> bool := SFltb.

(** [float(text)] for a decimal text [m / 10^k] whose [m] and [10^k] are
    themselves floats: the correctly rounded quotient. *)
Definition of_decimal (m : Z) (k : Z) : float := div (of_Z m) (of_Z (10 ^ k)).

(** C's truth value of a double: everything but the two zeros (a NaN is
    true). *)
Definition truthy (a : float) : bool :=
  match a with
  | S754_zero _ => false
  | _ => true
  end.

Definition signbit (a : float) : bool :=
  match a with
  | S754_zero s | S754_infinity s | S754_finite s _ _ => s
  | S754_nan => false
  end.

(** [copysign(0, b)] *)
Definition copysign0 (b : float) : float := S754_zero (signbit b).

(** The canonical representation of [(-1)^s * m * 2^e], for a mantissa that
    needs no rounding. *)
Definition canon (s : bool) (m : positive) (e : Z) : float :=
  let '(m', e') := shl_align m e (fexp prec emax (Zpos (digits2_pos m) + e)) in
  S754_finite s m' e'.

(** C's [fmod]: the exact remainder of the truncating division, with the sign
    of the dividend.  Both operands are brought to the smaller exponent and
    the remainder of the integer mantissas is taken. *)
Definition fmod (a b : float) : float :=
  match a, b with
  | S754_nan, _ | _, S754_nan => S754_nan
  | S754_infinity _, _ => S754_nan
  | _, S754_zero _ => S754_nan
  | S754_zero _, _ => a
  | S754_finite _ _ _, S754_infinity _ => a
  | S754_finite sa ma ea, S754_finite _ mb eb =>
      let e := Z.min ea eb in
      match (Zpos ma * 2 ^ (ea - e)) mod (Zpos mb * 2 ^ (eb - e)) with
      | Zpos r => canon sa r e
      | _ => S754_zero sa
      end
  end.

(** [a % b] for a numpy [float64] scalar [a] (numpy's [npy_remainder] and
    [npy_divmod]): a zero divisor gives [fmod]'s NaN without raising;
    otherwise a non-zero [fmod] result whose sign differs from the divisor's
    has the divisor added, and a zero result takes the divisor's sign. *)
Definition remainder (a b : float) : float :=
  let mod_ := fmod a b in
  if negb (truthy b) then mod_
  else if truthy mod_ then
    if negb (Bool.eqb (isless b pzero) (isless mod_ pzero))
    then add mod_ b
    else mod_
  else copysign0 b.

(** The rational a float stands for; nothing for NaN and the infinities. *)
Definition to_Q (a : float) : option Q :=
  match a with
  | S754_zero _ => Some 0%Q
  | S754_finite s m e =>
      let v := (inject_Z (Zpos m) * Qpower 2 e)%Q in
      Some (if s then (- v)%Q else v)
  | _ => None
  end.

Definition is_finite (a : float) : bool :=
  match a with
  | S754_zero _ | S754_finite _ _ _ => true
  | _ => false
  end.

(** A finite float that is zero or positive. *)
Definition finite_nonneg (t : float) : bool :=
  match t with
  | S754_zero _ | S754_finite false _ _ => true
  | _ => false
  end.

(** A finite float above zero. *)
Definition finite_pos (L : float) : bool :=
  is_finite L && isless pzero L.

(** [phase] lies in the half-open interval from 0 to [L]. *)
Definition in_half_open (phase L : float) : Prop :=
  exists q l, to_Q phase = Some q /\ to_Q L = Some l /\ (0 <= q)%Q /\ (q < l)%Q.

End F64.

(** ** Python values *)

Module Py.

(** A JSON number as Dash hands it to the callback. *)
Inductive pynum :=
| PyInt (z : Z)
| PyFloat (f : F64.float).

Inductive exn :=
| ValueError (msg : string).

Inductive outcome (A : Type) :=
| Returns (a : A)
| Raises (e : exn).
Arguments Returns {A} a.
Arguments Raises {A} e.

(** [str] of a Python int. *)
Definition str_int (z : Z) : string := NilZero.string_of_int (Z.to_int z).

(** [needle in haystack] for strings. *)
Definition contains (needle haystack : string) : bool :=
  match String.index 0 needle haystack with
  | Some _ => true
  | None => false
  end.

(** The element loop of a slice: [count] elements, from index [cur] on,
    [step] apart. *)
Fixpoint slice_loop {A : Type} (l : list A) (cur step : Z) (count : nat)
  : list A :=
  match count with
  | O => []
  | S count' =>
      match nth_error l (Z.to_nat cur) with
      | Some a => a :: slice_loop l (cur + step) step count'
      | None => []
      end
  end.

(** Number of indices of [range(start, stop, step)], [step <> 0]. *)
Definition slice_length (start stop step : Z) : Z :=
  if 0 <? step
  then (if start <? stop then (stop - start - 1) / step + 1 else 0)
  else (if stop <? start then (start - stop - 1) / (- step) + 1 else 0).

(** [l[::step]]: both ends of the slice are left out, so a positive step
    runs from index 0 up and a negative one from the last index down; a
    zero step raises. *)
Definition slice_step {A : Type} (l : list A) (step : Z) : outcome (list A) :=
  if step =? 0 then Raises (ValueError "slice step cannot be zero"%string)
  else
    let n := Z.of_nat (List.length l) in
    let start := if 0 <? step then 0 else n - 1 in
    let stop := if 0 <? step then n else -1 in
    Returns (slice_loop l start step (Z.to_nat (slice_length start stop step))).

(** The least number of strides of [s] that cover [n]. *)
Definition ceil_div (n s : Z) : Z := (n + s - 1) / s.

End Py.
Export Py.

(** ** The dataframe and the figures *)

Local Open Scope string_scope.

(** One line of [SN_m_tot_V2.0.csv] after [astype]. *)
Record Row := {
  Year : Z;
  Month : Z;
  Date_in_Fraction_of_Year : F64.float;
  Monthly_Mean : F64.float;
  Monthly_Mean_STD : F64.float;
  Number_of_Observations : F64.float;
  Definitive : Z
}.

(** The global [df]: the parsed rows and the derived column
    [df['Variability']], which line 35 creates and the callback reassigns. *)
Record DataFrame := {
  rows : list Row;
  Variability : list F64.float
}.

(** A plotly trace ([go.Scatter]). *)
Record Scatter := {
  x : list F64.float;
  y : list F64.float;
  mode : string;
  name : string;
  line_color : option string
}.

Record Figure := {
  data : list Scatter;
  title : string;
  xaxis_title : string;
  yaxis_title : string;
  xaxis_range : option (pynum * pynum)
}.

(** The axis title plotly express gives a column: its entry in [labels], or
    else the column name. *)
Fixpoint label_of (labels : list (string * string)) (col : string) : string :=
  match labels with
  | [] => col
  | (k, v) :: rest => if String.eqb k col then v else label_of rest col
  end.

(** [px.line(df, x='Date in Fraction of Year', y='Monthly Mean', ...)]: one
    line trace over all rows, in the first colour of the default colourway. *)
Definition px_line (df : DataFrame) (labels : list (string * string))
    (title : string) : Figure :=
  {| data := [ {| x := map Date_in_Fraction_of_Year (rows df);
                  y := map Monthly_Mean (rows df);
                  mode := "lines"; name := "";
                  line_color := Some "#636efa" |} ];
     title := title;
     xaxis_title := label_of labels "Date in Fraction of Year";
     yaxis_title := label_of labels "Monthly Mean";
     xaxis_range := None |}.

(** [px.scatter(df, x='Variability', y='Monthly Mean', ...)] *)
Definition px_scatter (df : DataFrame) (labels : list (string * string))
    (title : string) : Figure :=
  {| data := [ {| x := Variability df;
                  y := map Monthly_Mean (rows df);
                  mode := "markers"; name := ""; line_color := None |} ];
     title := title;
     xaxis_title := label_of labels "Variability";
     yaxis_title := label_of labels "Monthly Mean";
     xaxis_range := None |}.

(** [df.apply(lambda row: row['Date in Fraction of Year'] % c, axis=1)] *)
Definition apply_modulo (df : DataFrame) (c : F64.float) : list F64.float :=
  map (fun row => F64.remainder (Date_in_Fraction_of_Year row) c) (rows df).

(** ** The store and its monad *)

(** The two module-level objects the callback reads and writes. *)
Record Store := {
  df : DataFrame;
  fig : Figure
}.

Definition M (A : Type) : Type := Store -> outcome A * Store.

Definition ret {A} (a : A) : M A := fun s => (Returns a, s).

Definition bind {A B} (m : M A) (k : A -> M B) : M B :=
  fun s =>
    match m s with
    | (Returns a, s') => k a s'
    | (Raises e, s') => (Raises e, s')
    end.

Definition lift {A} (o : outcome A) : M A := fun s => (o, s).
Definition get_df : M DataFrame := fun s => (Returns (df s), s).
Definition get_fig : M Figure := fun s => (Returns (fig s), s).
Definition put_df (d : DataFrame) : M unit :=
  fun s => (Returns tt, {| df := d; fig := fig s |}).
Definition put_fig (f : Figure) : M unit :=
  fun s => (Returns tt, {| df := df s; fig := f |}).

Declare Scope py_scope.
Delimit Scope py_scope with py.
Notation "v <- m ;; k" := (bind m (fun v => k))
  (at level 61, m at next level, right associativity) : py_scope.
Notation "m ;; k" := (bind m (fun _ => k))
  (at level 61, right associativity) : py_scope.

(** [fig.update_xaxes(range=[lo, hi])] *)
Definition update_xaxes (lo hi : pynum) : M unit :=
  (f <- get_fig ;;
   put_fig {| data := data f; title := title f;
              xaxis_title := xaxis_title f; yaxis_title := yaxis_title f;
              xaxis_range := Some (lo, hi) |})%py.

(** [fig.data = ts] *)
Definition set_data (ts : list Scatter) : M unit :=
  (f <- get_fig ;;
   put_fig {| data := ts; title := title f;
              xaxis_title := xaxis_title f; yaxis_title := yaxis_title f;
              xaxis_range := xaxis_range f |})%py.

(** [fig.add_trace(t)] *)
Definition add_trace (t : Scatter) : M unit :=
  (f <- get_fig ;; set_data (data f ++ [t])%list)%py.

(** [df.iloc[::step]]; only the rows are used afterwards. *)
Definition iloc_step (step : Z) : M (list Row) :=
  (d <- get_df ;; lift (slice_step (rows d) step))%py.

(** [df['Variability'] = col] *)
Definition set_Variability (col : list F64.float) : M unit :=
  (d <- get_df ;; put_df {| rows := rows d; Variability := col |})%py.

(** ** The program *)

(** Lines 17-40: the store and the label once the module is loaded, from the
    parsed rows.  The line figure is built before [df] gets its derived
    column. *)
Definition df_loaded (csv : list Row) : DataFrame :=
  let d := {| rows := csv; Variability := [] |} in
  {| rows := csv; Variability := apply_modulo d (F64.of_Z 11) |}.

Definition fig_loaded (csv : list Row) : Figure :=
  px_line {| rows := csv; Variability := [] |}
    [("Date in Fraction of Year", "Date (Years)");
     ("Monthly Mean", "Mean Number of Sunspots")]
    "Monthly Means of Sunspot Counts".

Definition year_label_loaded : string :=
  "You are currently viewing the years 1749 to 2022!".

Definition var_fig_loaded (csv : list Row) : Figure :=
  px_scatter (df_loaded csv)
    [("Date in Fraction of Year", "Years");
     ("Variability", "Number of Sunspots")]
    "Variability, Sunspot Cycle Length: 11.0 Years".

Definition loaded (csv : list Row) : Store :=
  {| df := df_loaded csv; fig := fig_loaded csv |}.

(** Lines 62, 69 and 76: the year slider's ends, and the initial values of
    the three sliders. *)
Definition year_slider_min : Z := 1749.
Definition year_slider_max : Z := 2022.
Definition year_slider_default : pynum * pynum := (PyInt 1749, PyInt 2022).
Definition smoothness_default : Z := 5.
Definition cycle_len_default : F64.float := F64.of_Z 11.

(** One slider event: the three values Dash passes to the callback.  The
    range slider's two-element list is a pair, the stride a Python int and
    the cycle length the float that enters the remainder. *)
Definition event : Type := (pynum * pynum) * Z * F64.float.

Section Program.

(** Python's [str] of a float, from the runtime.  (A whole cycle length that
    the browser sends as an integer is written without [.0]; the cycle
    length is modelled as the float that enters the remainder, and nothing
    below depends on how it is written.) *)
Variable float_repr : F64.float -> string.

(** What an f-string writes for [{v}]. *)
Definition str (v : pynum) : string :=
  match v with
  | PyInt z => str_int z
  | PyFloat f => float_repr f
  end.

(** Lines 97-120. *)
Definition _refresh_plots (year_slider_value : pynum * pynum)
    (smoothness_value : Z) (cycle_length_value : F64.float)
    : M (Figure * Figure * string) :=
  (update_xaxes (fst year_slider_value) (snd year_slider_value) ;;
   f <- get_fig ;;
   set_data (firstn 1 (data f)) ;;
   smoothed_df <- iloc_step smoothness_value ;;
   add_trace {| x := map Date_in_Fraction_of_Year smoothed_df;
                y := map Monthly_Mean smoothed_df;
                mode := "lines"; name := "Smoothed";
                line_color := Some "red" |} ;;
   let year_label :=
     "You are currently viewing the years " ++ str (fst year_slider_value)
     ++ " to " ++ str (snd year_slider_value) ++ "!" in
   d <- get_df ;;
   set_Variability (apply_modulo d cycle_length_value) ;;
   d <- get_df ;;
   let var_fig :=
     px_scatter d
       [("Date in Fraction of Year", "Number of Sunspots");
        ("Variability", "Years")]
       ("Variability, Sunspot Cycle Length: "
        ++ float_repr cycle_length_value ++ " Years") in
   f <- get_fig ;;
   ret (f, var_fig, year_label))%py.

(** The store after the callback has run on an event, whether it returned
    or raised. *)
Definition dispatch (s : Store) (ev : event) : Store :=
  let '(year_slider_value, smoothness_value, cycle_length_value) := ev in
  snd (_refresh_plots year_slider_value smoothness_value cycle_length_value s).

(** The store after a sequence of events, oldest first. *)
Definition run (evs : list event) (s : Store) : Store :=
  fold_left dispatch evs s.

End Program.

(** What every store reached from the loaded one keeps: the parsed rows and
    the line trace, titles included. *)
Definition kept (csv : list Row) (s : Store) : Prop :=
  rows (df s) = csv /\
  firstn 1 (data (fig s)) = data (fig_loaded csv) /\
  title (fig s) = title (fig_loaded csv) /\
  xaxis_title (fig s) = xaxis_title (fig_loaded csv) /\
  yaxis_title (fig s) = yaxis_title (fig_loaded csv).

(** ** Concrete inputs *)

Module Sample.

(** [str] of the floats that are whole numbers below 10^16 (the digits and
    [.0]), of the zeros, NaN and the infinities; [?] stands for the other
    floats, which no example below renders. *)
Definition repr_whole (f : F64.float) : string :=
  match f with
  | S754_zero false => "0.0"
  | S754_zero true => "-0.0"
  | S754_infinity false => "inf"
  | S754_infinity true => "-inf"
  | S754_nan => "nan"
  | S754_finite s m e =>
      let whole := ((0 <=? e) || (Zpos m mod 2 ^ (- e) =? 0))%Z in
      let z := if (0 <=? e)%Z then Zpos m * 2 ^ e else Zpos m / 2 ^ (- e) in
      if whole && (z <? 10 ^ 16)%Z
      then (if s then "-" else "") ++ str_int z ++ ".0"
      else "?"
  end.

(** The first three lines of the table:
    [1749;01;1749.042;  96.7; -1.0;   -1;1] and the two after it. *)
Definition first_rows : list Row :=
  [ {| Year := 1749; Month := 1;
       Date_in_Fraction_of_Year := F64.of_decimal 1749042 3;
       Monthly_Mean := F64.of_decimal 967 1;
       Monthly_Mean_STD := F64.of_Z (-1);
       Number_of_Observations := F64.of_Z (-1); Definitive := 1 |};
    {| Year := 1749; Month := 2;
       Date_in_Fraction_of_Year := F64.of_decimal 1749123 3;
       Monthly_Mean := F64.of_decimal 1043 1;
       Monthly_Mean_STD := F64.of_Z (-1);
       Number_of_Observations := F64.of_Z (-1); Definitive := 1 |};
    {| Year := 1749; Month := 3;
       Date_in_Fraction_of_Year := F64.of_decimal 1749204 3;
       Monthly_Mean := F64.of_decimal 1167 1;
       Monthly_Mean_STD := F64.of_Z (-1);
       Number_of_Observations := F64.of_Z (-1); Definitive := 1 |} ].

(** A row with the given date and monthly mean. *)
Definition row_at (t v : F64.float) : Row :=
  {| Year := 0; Month := 1; Date_in_Fraction_of_Year := t; Monthly_Mean := v;
     Monthly_Mean_STD := F64.of_Z (-1);
     Number_of_Observations := F64.of_Z (-1); Definitive := 1 |}.

(** The synthetic series with dates 0, 1, 2 and means 10, 20, 30. *)
Definition three_rows : list Row :=
  [ row_at (F64.of_Z 0) (F64.of_Z 10); row_at (F64.of_Z 1) (F64.of_Z 20);
    row_at (F64.of_Z 2) (F64.of_Z 30) ].

(** A line whose date field reads [-1e-20]. *)
Definition tiny_negative_row : Row :=
  row_at (F64.of_decimal (-1) 20) (F64.of_Z 10).

(** The store after one event with cycle length 7.0 on the first rows. *)
Definition after_cycle_7 : Store :=
  dispatch repr_whole (loaded first_rows)
    ((PyInt 1749, PyInt 2022), 5, F64.of_Z 7).

(** Three events, the second of which makes the callback raise. *)
Definition earlier_events : list event :=
  [ ((PyInt 1800, PyInt 1900), 3, F64.of_Z 7);
    ((PyInt 1800, PyInt 1900), 0, F64.of_Z 7);
    ((PyInt 1749, PyInt 2022), 1, F64.of_Z 22) ].

End Sample.

(** ** The layout's sliders *)

(** Line 69: [dcc.Slider(min=1, max=25, step=1, ...)], the stride. *)
Definition smoothness_min : Z := 1.
Definition smoothness_max : Z := 25.

(** A stride the smoothness slider can be moved to. *)
Definition on_smoothness_slider (n : Z) : bool :=
  ((smoothness_min <=? n) && (n <=? smoothness_max))%Z.

(** Line 76: [dcc.Slider(id='cycle-len', min=1.0, max=100.0, ...)]. *)
Definition cycle_len_min : F64.float := F64.of_Z 1.
Definition cycle_len_max : F64.float := F64.of_Z 100.

(** A cycle length between the ends of the cycle slider. *)
Definition on_cycle_len_slider (c : F64.float) : bool :=
  SFleb cycle_len_min c && SFleb c cycle_len_max.

(** ** Loading the table *)

Module Loading.

(** A Python [str]: its code points. *)
Definition pystr : Type := list N.

(** The code points [str.strip] removes: those for which [str.isspace]
    holds. *)
Definition is_space (ch : N) : bool :=
  (((9 <=? ch) && (ch <=? 13)) || ((28 <=? ch) && (ch <=? 32))
   || (ch =? 133) || (ch =? 160) || (ch =? 5760)
   || ((8192 <=? ch) && (ch <=? 8202))
   || (ch =? 8232) || (ch =? 8233) || (ch =? 8239) || (ch =? 8287)
   || (ch =? 12288))%N.

Fixpoint lstrip (t : pystr) : pystr :=
  match t with
  | ch :: rest => if is_space ch then lstrip rest else t
  | [] => []
  end.

Definition rstrip (t : pystr) : pystr := rev (lstrip (rev t)).

(** [t.strip()] *)
Definition strip (t : pystr) : pystr := rstrip (lstrip t).

(** [t.split(sep)] for a separator of one code point: always at least one
    piece. *)
Fixpoint split (sep : N) (t : pystr) : list pystr :=
  match t with
  | [] => [[]]
  | ch :: rest =>
      if (ch =? sep)%N then [] :: split sep rest
      else match split sep rest with
           | piece :: pieces => (ch :: piece) :: pieces
           | [] => [[ch]]
           end
  end.

(** [';'] *)
Definition semicolon : N := 59.

(** [sep.join(pieces)], the text that [split] takes apart. *)
Fixpoint join (sep : N) (pieces : list pystr) : pystr :=
  match pieces with
  | [] => []
  | [piece] => piece
  | piece :: rest => (piece ++ sep :: join sep rest)%list
  end.

(** A field as it stands in a line of the file: the text between two runs of
    blanks. *)
Definition padded (cell : pystr * pystr * pystr) : pystr :=
  let '(before, field, after) := cell in (before ++ field ++ after)%list.

Inductive load_exn :=
| IndexError
| ColumnCountError (passed : nat)
| ConversionError.

Inductive load_outcome (A : Type) :=
| Loaded (a : A)
| LoadRaises (e : load_exn).
Arguments Loaded {A} a.
Arguments LoadRaises {A} e.

(** Lines 11-14, from the rows [csv.reader] yields (a blank line of the file
    is an empty row): each row's first field, split at the semicolons, each
    piece stripped.  [row[0]] raises on an empty row. *)
Fixpoint dflines_of (reader_rows : list (list pystr))
  : load_outcome (list (list pystr)) :=
  match reader_rows with
  | [] => Loaded []
  | row :: rest =>
      match row with
      | [] => LoadRaises IndexError
      | first :: _ =>
          match dflines_of rest with
          | Loaded dflines =>
              Loaded (map strip (split semicolon first) :: dflines)
          | LoadRaises e => LoadRaises e
          end
      end
  end.

(** Lines 17-18, [pd.DataFrame(dflines, columns=[...])] with its seven column
    names: the lines become a table of objects as wide as the longest line,
    shorter lines filled up with [None]; a width other than seven raises,
    unless there is no line at all. *)
Definition pad (width : nat) (fields : list pystr) : list (option pystr) :=
  (map Some fields ++ repeat None (width - List.length fields))%list.

Definition DataFrame_of (dflines : list (list pystr))
  : load_outcome (list (list (option pystr))) :=
  match dflines with
  | [] => Loaded []
  | _ =>
      let width := list_max (map (@List.length pystr) dflines) in
      if (width =? 7)%nat then Loaded (map (pad width) dflines)
      else LoadRaises (ColumnCountError width)
  end.

Section Astype.

(** Python's [int] and [float] of a text, from the runtime; nothing where
    they raise. *)
Variable py_int : pystr -> option Z.
Variable py_float : pystr -> option F64.float.

(** One cell as [int64]: [None] and a text [int] rejects raise, and so does
    an integer outside the 64-bit range. *)
Definition as_int64 (cell : option pystr) : option Z :=
  match cell with
  | None => None
  | Some t =>
      match py_int t with
      | Some z =>
          if ((- 2 ^ 63 <=? z) && (z <? 2 ^ 63))%Z then Some z else None
      | None => None
      end
  end.

(** One cell as [float]: [None] becomes NaN. *)
Definition as_float (cell : option pystr) : option F64.float :=
  match cell with
  | None => Some F64.nan
  | Some t => py_float t
  end.

(** One line of the table under the [astype] of lines 19-20. *)
Definition astype_row (cells : list (option pystr)) : option Row :=
  match cells with
  | [c_year; c_month; c_date; c_mean; c_std; c_obs; c_def] =>
      match as_int64 c_year, as_int64 c_month, as_float c_date,
            as_float c_mean, as_float c_std, as_float c_obs,
            as_int64 c_def with
      | Some year, Some month, Some date, Some mean, Some std, Some obs,
        Some def =>
          Some {| Year := year; Month := month;
                  Date_in_Fraction_of_Year := date; Monthly_Mean := mean;
                  Monthly_Mean_STD := std; Number_of_Observations := obs;
                  Definitive := def |}
      | _, _, _, _, _, _, _ => None
      end
  | _ => None
  end.

(** Lines 19-20: every cell converts, or [astype] raises (which of its
    exceptions is not told apart). *)
Fixpoint astype (table : list (list (option pystr)))
  : load_outcome (list Row) :=
  match table with
  | [] => Loaded []
  | cells :: rest =>
      match astype_row cells, astype rest with
      | Some row, Loaded rows => Loaded (row :: rows)
      | _, _ => LoadRaises ConversionError
      end
  end.

(** The fields of one line against the row they are converted to: exactly
    seven, the three integer ones accepted by [int] and within 64 bits, the
    four others accepted by [float]. *)
Definition converts (fields : list pystr) (row : Row) : Prop :=
  exists t_year t_month t_date t_mean t_std t_obs t_def,
    fields = [t_year; t_month; t_date; t_mean; t_std; t_obs; t_def] /\
    py_int t_year = Some (Year row) /\
    py_int t_month = Some (Month row) /\
    py_float t_date = Some (Date_in_Fraction_of_Year row) /\
    py_float t_mean = Some (Monthly_Mean row) /\
    py_float t_std = Some (Monthly_Mean_STD row) /\
    py_float t_obs = Some (Number_of_Observations row) /\
    py_int t_def = Some (Definitive row) /\
    (- 2 ^ 63 <= Year row < 2 ^ 63)%Z /\
    (- 2 ^ 63 <= Month row < 2 ^ 63)%Z /\
    (- 2 ^ 63 <= Definitive row < 2 ^ 63)%Z.

(** Lines 11-20: the parsed rows of [df]. *)
Definition load (reader_rows : list (list pystr)) : load_outcome (list Row) :=
  match dflines_of reader_rows with
  | LoadRaises e => LoadRaises e
  | Loaded dflines =>
      match DataFrame_of dflines with
      | LoadRaises e => LoadRaises e
      | Loaded table => astype table
      end
  end.

End Astype.

End Loading.

(** ** Concrete texts *)

Module SampleText.
Import Loading.

(** An ASCII text as a Python [str]. *)
Definition text (s : string) : pystr :=
  map N_of_ascii (list_ascii_of_string s).

(** The value of a run of ASCII digits. *)
Fixpoint digits_value (acc : Z) (t : pystr) : option Z :=
  match t with
  | [] => Some acc
  | ch :: rest =>
      if ((48 <=? ch) && (ch <=? 57))%N
      then digits_value (10 * acc + (Z.of_N ch - 48)) rest
      else None
  end.

(** [int] on the texts made of ASCII digits with at most a minus sign before
    them; the other texts [int] accepts are left out. *)
Definition int_of_digits (t : pystr) : option Z :=
  match t with
  | [] => None
  | 45%N :: [] => None
  | 45%N :: rest => option_map Z.opp (digits_value 0 rest)
  | _ => digits_value 0 t
  end.

(** [float] on the texts [digits] and [digits.digits] with at most a minus
    sign before them, up to fifteen digits in all; the other texts [float]
    accepts are left out. *)
Definition float_of_decimal (t : pystr) : option F64.float :=
  let negative := match t with 45%N :: _ => true | _ => false end in
  let body := match t with 45%N :: rest => rest | _ => t end in
  match split 46 body with
  | [whole] =>
      match whole, digits_value 0 whole with
      | _ :: _, Some m =>
          if (List.length whole <=? 15)%nat
          then Some (if (m =? 0)%Z then S754_zero negative
                     else F64.of_Z (if negative then - m else m))
          else None
      | _, _ => None
      end
  | [whole; frac] =>
      match whole, frac, digits_value 0 (whole ++ frac)%list with
      | _ :: _, _ :: _, Some m =>
          if (List.length (whole ++ frac)%list <=? 15)%nat
          then Some (if (m =? 0)%Z then S754_zero negative
                     else F64.of_decimal (if negative then - m else m)
                            (Z.of_nat (List.length frac)))
          else None
      | _, _, _ => None
      end
  | _ => None
  end.

(** The first three lines of the file, as the reader yields them. *)
Definition first_lines : list (list pystr) :=
  [ [text "1749;01;1749.042;  96.7; -1.0;   -1;1"];
    [text "1749;02;1749.123; 104.3; -1.0;   -1;1"];
    [text "1749;03;1749.204; 116.7; -1.0;   -1;1"] ].

(** A row whose date is missing. *)
Definition undated_row : Row :=
  Sample.row_at F64.nan (F64.of_Z 10).

End SampleText.

(** ** Facts about the float remainder *)

Module F64Facts.
Import F64.

Local Open Scope Q_scope.

Lemma finite_pos_inv L :
  finite_pos L = true -> exists m e, L = S754_finite false m e.
Proof.
  destruct L as [[]|[]| |[] m e]; cbn; try discriminate.
  intros _. now exists m, e.
Qed.

Lemma two_nonzero : ~ 2 == 0.
Proof. discriminate. Qed.

Lemma pow2_pos e : 0 < 2 ^ e.
Proof. apply Qpower_0_lt. reflexivity. Qed.

(** Moving a power of two from the mantissa to the exponent. *)
Lemma scale_exponent (m e0 e : Z) :
  (e <= e0)%Z -> inject_Z (m * 2 ^ (e0 - e)) * 2 ^ e == inject_Z m * 2 ^ e0.
Proof.
  intros Hle.
  rewrite inject_Z_mult, Zpower_Qpower by lia.
  replace e0 with ((e0 - e) + e)%Z at 2 by lia.
  rewrite Qpower_plus by apply two_nonzero.
  change (inject_Z 2) with 2. ring.
Qed.

Lemma iter_xO m d : Zpos (Pos.iter xO m d) = (Zpos m * 2 ^ Zpos d)%Z.
Proof.
  revert m. induction d using Pos.peano_ind; intros m.
  - cbn. lia.
  - rewrite Pos.iter_succ, Pos2Z.inj_succ, Z.pow_succ_r by lia.
    rewrite Pos2Z.inj_xO, IHd. ring.
Qed.

Lemma shl_align_value m e e' m' e'' :
  shl_align m e e' = (m', e'') ->
  inject_Z (Zpos m') * 2 ^ e'' == inject_Z (Zpos m) * 2 ^ e.
Proof.
  unfold shl_align. destruct (e' - e)%Z as [|d|d] eqn:E; intros H;
    inversion H; subst; try reflexivity.
  rewrite iter_xO.
  replace (Zpos d) with (e - e'')%Z by lia.
  apply scale_exponent. lia.
Qed.

(** [canon] changes the representation, not the value. *)
Lemma canon_value s m e :
  exists m' e', canon s m e = S754_finite s m' e' /\
    inject_Z (Zpos m') * 2 ^ e' == inject_Z (Zpos m) * 2 ^ e.
Proof.
  unfold canon.
  destruct (shl_align m e _) as [m' e'] eqn:E.
  exists m', e'. split; [reflexivity|]. now apply shl_align_value in E.
Qed.

(** On a positive dividend and a positive divisor [remainder] is [fmod]: the
    exact remainder of the aligned mantissas, with no sum to round. *)
Lemma remainder_pos_pos (ma : positive) (ea : Z) (mb : positive) (eb : Z) :
  let e := Z.min ea eb in
  let A := (Zpos ma * 2 ^ (ea - e))%Z in
  let B := (Zpos mb * 2 ^ (eb - e))%Z in
  exists q,
    to_Q (remainder (S754_finite false ma ea) (S754_finite false mb eb))
      = Some q /\
    q == inject_Z (A mod B) * 2 ^ e.
Proof.
  intros e A B. unfold remainder, fmod. fold e. fold A. fold B.
  cbn [truthy negb].
  assert (HB : (0 < B)%Z).
  { unfold B. apply Z.mul_pos_pos; [lia | apply Z.pow_pos_nonneg; lia]. }
  pose proof (Z.mod_pos_bound A B HB) as Hr.
  destruct (A mod B)%Z as [|r|r] eqn:Er; [| |lia].
  - cbn. exists 0. split; [reflexivity|]. ring.
  - destruct (canon_value false r e) as (m' & e' & -> & Hv).
    cbn. eexists. split; [reflexivity|]. exact Hv.
Qed.

(** The phase of a date that is finite and not negative is the date less a
    whole number of cycle lengths, for a positive finite cycle length. *)
Lemma remainder_exact t L :
  finite_nonneg t = true -> finite_pos L = true ->
  exists (k : Z) tq l q,
    (0 <= k)%Z /\ to_Q t = Some tq /\ to_Q L = Some l /\
    to_Q (remainder t L) = Some q /\ tq == inject_Z k * l + q.
Proof.
  intros Ht HL. destruct (finite_pos_inv L HL) as (mb & eb & ->).
  destruct t as [s|s| |s ma ea]; try discriminate.
  - exists 0%Z, 0, (inject_Z (Zpos mb) * 2 ^ eb), 0.
    split; [lia|]. repeat (split; [reflexivity|]). ring.
  - destruct s; [discriminate|].
    destruct (remainder_pos_pos ma ea mb eb) as (q & Hq & Hv).
    cbv zeta in Hv.
    set (e := Z.min ea eb) in *.
    set (A := (Zpos ma * 2 ^ (ea - e))%Z) in *.
    set (B := (Zpos mb * 2 ^ (eb - e))%Z) in *.
    assert (HB : (0 < B)%Z).
    { unfold B. apply Z.mul_pos_pos; [lia | apply Z.pow_pos_nonneg; lia]. }
    assert (HA : (0 <= A)%Z).
    { unfold A. apply Z.mul_nonneg_nonneg; [lia | apply Z.pow_nonneg; lia]. }
    exists (A / B)%Z, (inject_Z (Zpos ma) * 2 ^ ea),
      (inject_Z (Zpos mb) * 2 ^ eb), q.
    split; [apply Z.div_pos; lia|].
    split; [reflexivity|]. split; [reflexivity|]. split; [exact Hq|].
    rewrite Hv.
    rewrite <- (scale_exponent (Zpos ma) ea e) by lia.
    rewrite <- (scale_exponent (Zpos mb) eb e) by lia.
    fold A. fold B.
    rewrite (Z.div_mod A B) at 1 by lia.
    rewrite inject_Z_plus, inject_Z_mult. ring.
Qed.

(** The phase of a date that is finite and not negative lies in the half-open
    interval, for a positive finite cycle length. *)
Lemma remainder_in_half_open t L :
  finite_nonneg t = true -> finite_pos L = true ->
  in_half_open (remainder t L) L.
Proof.
  intros Ht HL. destruct (finite_pos_inv L HL) as (mb & eb & ->).
  assert (Hl : 0 < inject_Z (Zpos mb) * 2 ^ eb).
  { apply Qmult_lt_0_compat; [reflexivity | apply pow2_pos]. }
  destruct t as [s|s| |s ma ea]; try discriminate.
  - exists 0, (inject_Z (Zpos mb) * 2 ^ eb).
    split; [reflexivity|]. split; [reflexivity|].
    split; [apply Qle_refl | exact Hl].
  - destruct s; [discriminate|].
    destruct (remainder_pos_pos ma ea mb eb) as (q & Hq & Hv).
    cbv zeta in Hv.
    set (e := Z.min ea eb) in *.
    set (A := (Zpos ma * 2 ^ (ea - e))%Z) in *.
    set (B := (Zpos mb * 2 ^ (eb - e))%Z) in *.
    assert (HB : (0 < B)%Z).
    { unfold B. apply Z.mul_pos_pos; [lia | apply Z.pow_pos_nonneg; lia]. }
    pose proof (Z.mod_pos_bound A B HB) as Hr.
    exists q, (inject_Z (Zpos mb) * 2 ^ eb).
    split; [exact Hq|]. split; [reflexivity|].
    rewrite Hv. split.
    + apply Qmult_le_0_compat; [|apply Qlt_le_weak, pow2_pos].
      rewrite <- (Zle_Qle 0). lia.
    + rewrite <- (scale_exponent (Zpos mb) eb e) by lia.
      fold B. apply Qmult_lt_compat_r; [apply pow2_pos|].
      rewrite <- Zlt_Qlt. lia.
Qed.

(** No float lies in the half-open interval that ends at itself. *)
Lemma not_in_half_open_self L : ~ in_half_open L L.
Proof.
  intros (q & l & Hq & Hl & _ & Hlt).
  rewrite Hq in Hl. inversion Hl; subst. exact (Qlt_irrefl _ Hlt).
Qed.

(** With a zero divisor the phase is NaN. *)
Lemma remainder_zero_divisor t s : remainder t (S754_zero s) = nan.
Proof. destruct t; reflexivity. Qed.

(** [1749.042 % 11] is [0.041999999999916326], that is
    [0x1.5810624dd0000p-5]. *)
Example remainder_first_date :
  remainder (of_decimal 1749042 3) (of_Z 11)
  = S754_finite false 6052837899173888 (-57).
Proof. reflexivity. Qed.

(** [-7.5 % 2.0] is [0.5] and [7.5 % -2.0] is [-0.5]: the sign is the
    divisor's. *)
Example remainder_sign_of_divisor :
  remainder (of_decimal (-75) 1) (of_Z 2) = of_decimal 5 1 /\
  remainder (of_decimal 75 1) (of_Z (-2)) = of_decimal (-5) 1.
Proof. split; reflexivity. Qed.

(** [-1e-20 % 1.0] is [1.0]: the sum of the [fmod] result and the divisor is
    rounded. *)
Example remainder_rounds_up_to_divisor :
  remainder (of_decimal (-1) 20) (of_Z 1) = of_Z 1.
Proof. reflexivity. Qed.

End F64Facts.

(** ** Facts about slicing *)

Module SliceFacts.

Lemma ceil_div_spec n s :
  0 < s -> (ceil_div n s - 1) * s < n <= ceil_div n s * s.
Proof.
  intros Hs. unfold ceil_div.
  pose proof (Z.div_mod (n + s - 1) s ltac:(lia)) as Hdm.
  pose proof (Z.mod_pos_bound (n + s - 1) s Hs) as Hb.
  nia.
Qed.

Section Loop.
Context {A : Type}.

(** While every index the loop visits is inside the list, it yields exactly
    [count] elements, the [i]-th being the one at [cur + i * step]. *)
Lemma slice_loop_in_range (l : list A) (step : Z) :
  forall (count : nat) (cur : Z),
    (forall i, 0 <= i < Z.of_nat count ->
               0 <= cur + i * step < Z.of_nat (List.length l)) ->
    List.length (slice_loop l cur step count) = count /\
    forall i, (i < count)%nat ->
      nth_error (slice_loop l cur step count) i
      = nth_error l (Z.to_nat (cur + Z.of_nat i * step)).
Proof.
  induction count as [|count IH]; intros cur Hin.
  - split; [reflexivity|]. intros i Hi. lia.
  - cbn [slice_loop].
    assert (H0 : 0 <= cur < Z.of_nat (List.length l)).
    { specialize (Hin 0). lia. }
    destruct (nth_error l (Z.to_nat cur)) as [a|] eqn:Ea.
    2:{ apply nth_error_None in Ea. lia. }
    destruct (IH (cur + step)) as [IHlen IHnth].
    { intros i Hi. specialize (Hin (i + 1)).
      replace (cur + step + i * step) with (cur + (i + 1) * step) by ring.
      apply Hin. lia. }
    split; [cbn; now rewrite IHlen|].
    intros [|i] Hi.
    + cbn. now rewrite Z.add_0_r.
    + cbn [nth_error]. rewrite IHnth by lia.
      f_equal. f_equal. lia.
Qed.

(** [l[::s]] for a positive stride. *)
Lemma slice_step_pos (l : list A) (s : Z) :
  1 <= s ->
  exists l', slice_step l s = Returns l' /\
    Z.of_nat (List.length l') = ceil_div (Z.of_nat (List.length l)) s /\
    forall i, (i < List.length l')%nat ->
      nth_error l' i = nth_error l (i * Z.to_nat s).
Proof.
  intros Hs. unfold slice_step.
  destruct (Z.eqb_spec s 0) as [|_]; [lia|].
  destruct (Z.ltb_spec 0 s) as [_|]; [|lia].
  set (n := Z.of_nat (List.length l)).
  eexists. split; [reflexivity|].
  assert (Hlen : slice_length 0 n s = ceil_div n s).
  { unfold slice_length, ceil_div.
    destruct (Z.ltb_spec 0 s) as [_|]; [|lia].
    destruct (Z.ltb_spec 0 n) as [Hn|Hn].
    - replace (n + s - 1) with (n - 0 - 1 + 1 * s) by ring.
      rewrite Z.div_add by lia. reflexivity.
    - assert (Hz : n = 0) by lia. rewrite Hz.
      symmetry. apply Z.div_small. lia. }
  pose proof (ceil_div_spec n s ltac:(lia)) as Hc.
  assert (Hnn : 0 <= ceil_div n s).
  { unfold ceil_div. apply Z.div_pos; lia. }
  destruct (slice_loop_in_range l s (Z.to_nat (slice_length 0 n s)) 0)
    as [Hl Hnth].
  { intros i Hi. rewrite Hlen in Hi. fold n. nia. }
  rewrite Hl. split; [rewrite Hlen; lia|].
  intros i Hi. rewrite Hnth by exact Hi.
  f_equal. rewrite Z.add_0_l. rewrite Z2Nat.inj_mul by lia.
  now rewrite Nat2Z.id.
Qed.

(** A stride of one keeps every element. *)
Lemma slice_step_one (l : list A) : slice_step l 1 = Returns l.
Proof.
  destruct (slice_step_pos l 1 ltac:(lia)) as (l' & -> & Hlen & Hnth).
  f_equal. apply nth_error_ext. intros i.
  unfold ceil_div in Hlen. rewrite Z.div_1_r in Hlen.
  destruct (Nat.lt_ge_cases i (List.length l')) as [Hi|Hi].
  - rewrite Hnth by exact Hi. f_equal. cbn. lia.
  - pose proof (proj2 (nth_error_None l' i) Hi) as ->.
    symmetry. apply nth_error_None. lia.
Qed.

(** [l[::s]] for a negative stride: no error, the elements are taken from
    the last one downwards. *)
Lemma slice_step_neg (l : list A) (s : Z) :
  s < 0 ->
  exists l', slice_step l s = Returns l' /\
    Z.of_nat (List.length l') = ceil_div (Z.of_nat (List.length l)) (- s) /\
    forall i, (i < List.length l')%nat ->
      nth_error l' i = nth_error l (List.length l - 1 - i * Z.to_nat (- s)).
Proof.
  intros Hs. unfold slice_step.
  destruct (Z.eqb_spec s 0) as [|_]; [lia|].
  destruct (Z.ltb_spec 0 s) as [|_]; [lia|].
  set (n := Z.of_nat (List.length l)).
  eexists. split; [reflexivity|].
  assert (Hlen : slice_length (n - 1) (-1) s = ceil_div n (- s)).
  { unfold slice_length, ceil_div.
    destruct (Z.ltb_spec 0 s) as [|_]; [lia|].
    destruct (Z.ltb_spec (-1) (n - 1)) as [Hn|Hn].
    - replace (n + - s - 1) with (n - 1 - -1 - 1 + 1 * (- s)) by ring.
      rewrite Z.div_add by lia. reflexivity.
    - assert (Hz : n = 0) by lia. rewrite Hz.
      symmetry. apply Z.div_small. lia. }
  pose proof (ceil_div_spec n (- s) ltac:(lia)) as Hc.
  assert (Hnn : 0 <= ceil_div n (- s)).
  { unfold ceil_div. apply Z.div_pos; lia. }
  destruct (slice_loop_in_range l s (Z.to_nat (slice_length (n - 1) (-1) s))
              (n - 1)) as [Hl Hnth].
  { intros i Hi. rewrite Hlen in Hi. fold n. nia. }
  rewrite Hl. split; [rewrite Hlen; lia|].
  intros i Hi. rewrite Hnth by exact Hi.
  f_equal. rewrite Hlen in Hi. unfold n. nia.
Qed.

(** The slice raises for a zero stride only. *)
Lemma slice_step_returns (l : list A) (s : Z) :
  s <> 0 -> exists l', slice_step l s = Returns l'.
Proof.
  intros Hs. unfold slice_step.
  destruct (Z.eqb_spec s 0); [contradiction|]. eexists. reflexivity.
Qed.

End Loop.

End SliceFacts.

(** ** Facts about the callback *)

Section Refresh.
Variable float_repr : F64.float -> string.

(** The callback, run symbolically: the x-axis range and the truncation of
    the traces happen before the slice can raise; everything else after. *)
Lemma refresh_eq yv n c s :
  _refresh_plots float_repr yv n c s =
    let f1 := {| data := firstn 1 (data (fig s)); title := title (fig s);
                 xaxis_title := xaxis_title (fig s);
                 yaxis_title := yaxis_title (fig s);
                 xaxis_range := Some (fst yv, snd yv) |} in
    match slice_step (rows (df s)) n with
    | Raises e => (Raises e, {| df := df s; fig := f1 |})
    | Returns smoothed_df =>
        let f2 := {| data := (firstn 1 (data (fig s)) ++
                       [ {| x := map Date_in_Fraction_of_Year smoothed_df;
                            y := map Monthly_Mean smoothed_df;
                            mode := "lines"; name := "Smoothed";
                            line_color := Some "red" |} ])%list;
                     title := title (fig s);
                     xaxis_title := xaxis_title (fig s);
                     yaxis_title := yaxis_title (fig s);
                     xaxis_range := Some (fst yv, snd yv) |} in
        let d2 := {| rows := rows (df s);
                     Variability := apply_modulo (df s) c |} in
        (Returns (f2,
                  px_scatter d2
                    [("Date in Fraction of Year", "Number of Sunspots");
                     ("Variability", "Years")]
                    ("Variability, Sunspot Cycle Length: "
                     ++ float_repr c ++ " Years"),
                  "You are currently viewing the years "
                  ++ str float_repr (fst yv)
                  ++ " to " ++ str float_repr (snd yv) ++ "!"),
         {| df := d2; fig := f2 |})
    end.
Proof.
  unfold _refresh_plots, bind, update_xaxes, set_data, add_trace, iloc_step,
    set_Variability, get_fig, get_df, put_fig, put_df, lift, ret, bind.
  cbn. destruct (slice_step (rows (df s)) n); reflexivity.
Qed.

Lemma kept_loaded csv : kept csv (loaded csv).
Proof. repeat split. Qed.

Lemma kept_refresh csv yv n c s :
  kept csv s -> kept csv (snd (_refresh_plots float_repr yv n c s)).
Proof.
  intros (Hr & Hd & Ht & Hx & Hy). rewrite refresh_eq. cbv zeta.
  destruct (slice_step (rows (df s)) n) as [sm|e];
    cbn [snd df fig data rows title xaxis_title yaxis_title];
    repeat split; try assumption.
  - rewrite Hd. reflexivity.
  - rewrite Hd. reflexivity.
Qed.

Lemma kept_run csv evs :
  forall s, kept csv s -> kept csv (run float_repr evs s).
Proof.
  induction evs as [|[[yv n] c] evs IH]; intros s Hs; [exact Hs|].
  change (kept csv (run float_repr evs
                      (snd (_refresh_plots float_repr yv n c s)))).
  apply IH. now apply kept_refresh.
Qed.

(** What the callback returns is fixed by its arguments and by what is
    kept. *)
Lemma refresh_result_kept csv yv n c s1 s2 :
  kept csv s1 -> kept csv s2 ->
  fst (_refresh_plots float_repr yv n c s1)
    = fst (_refresh_plots float_repr yv n c s2).
Proof.
  intros (Hr1 & Hd1 & Ht1 & Hx1 & Hy1) (Hr2 & Hd2 & Ht2 & Hx2 & Hy2).
  rewrite !refresh_eq. cbv zeta. unfold apply_modulo.
  rewrite Hr1, Hr2, Hd1, Hd2, Ht1, Ht2, Hx1, Hx2, Hy1, Hy2.
  destruct (slice_step csv n); reflexivity.
Qed.

End Refresh.

(** ** The claims *)

Section Claims.
Variable float_repr : F64.float -> string.

(** C2.  For every stride [n >= 1] the callback returns, and the overlay trace
    it appends to the figure holds exactly ceil(rows / n) points, in row
    order: the [i]-th point is the date and the monthly mean of row [i * n].
    With [n = 1] the overlay holds every row. *)
Theorem resample_every_stride_th_row yv n c s :
  1 <= n ->
  exists f vf lbl s' overlay,
    _refresh_plots float_repr yv n c s = (Returns (f, vf, lbl), s') /\
    data f = (firstn 1 (data (fig s)) ++ [overlay])%list /\
    Z.of_nat (List.length (x overlay))
      = ceil_div (Z.of_nat (List.length (rows (df s)))) n /\
    List.length (y overlay) = List.length (x overlay) /\
    (forall i, (i < List.length (x overlay))%nat ->
       exists row, nth_error (rows (df s)) (i * Z.to_nat n) = Some row /\
         nth_error (x overlay) i = Some (Date_in_Fraction_of_Year row) /\
         nth_error (y overlay) i = Some (Monthly_Mean row)) /\
    (n = 1 -> x overlay = map Date_in_Fraction_of_Year (rows (df s)) /\
              y overlay = map Monthly_Mean (rows (df s))).
Proof.
  intros Hn. rewrite refresh_eq. cbv zeta.
  destruct (SliceFacts.slice_step_pos (rows (df s)) n Hn)
    as (sm & Hsm & Hlen & Hnth).
  rewrite Hsm. do 5 eexists. split; [reflexivity|].
  cbn [data]. split; [reflexivity|]. cbn [x y].
  rewrite !length_map. split; [exact Hlen|]. split; [reflexivity|]. split.
  - intros i Hi. specialize (Hnth i Hi).
    destruct (nth_error sm i) as [row|] eqn:Ei.
    2:{ apply nth_error_None in Ei. lia. }
    exists row. split; [now rewrite <- Hnth|].
    rewrite !nth_error_map, Ei. split; reflexivity.
  - intros ->. rewrite SliceFacts.slice_step_one in Hsm.
    inversion Hsm; subst. split; reflexivity.
Qed.

(** C1 (amended).  For every stride other than zero the callback returns, and
    the scatter figure holds one point per row, in row order: the [i]-th
    point is (date of row [i] % cycle length, monthly mean of row [i]).  When
    the cycle length is finite and positive, the phase of every row whose
    date is finite and not negative lies in the half-open interval from 0 to
    the cycle length. *)
Theorem fold_points_and_phase_range yv n c s :
  n <> 0 ->
  exists f vf lbl s' pts,
    _refresh_plots float_repr yv n c s = (Returns (f, vf, lbl), s') /\
    data vf = [pts] /\
    x pts = map (fun row => F64.remainder (Date_in_Fraction_of_Year row) c)
                (rows (df s)) /\
    y pts = map Monthly_Mean (rows (df s)) /\
    (F64.finite_pos c = true ->
     forall row, In row (rows (df s)) ->
       F64.finite_nonneg (Date_in_Fraction_of_Year row) = true ->
       F64.in_half_open
         (F64.remainder (Date_in_Fraction_of_Year row) c) c).
Proof.
  intros Hn. rewrite refresh_eq. cbv zeta.
  destruct (slice_step (rows (df s)) n) as [sm|e] eqn:Hsm.
  2:{ unfold slice_step in Hsm. destruct (Z.eqb_spec n 0); [lia|discriminate]. }
  do 5 eexists. split; [reflexivity|].
  cbn [px_scatter data]. split; [reflexivity|].
  cbn [x y rows Variability].
  split; [reflexivity|]. split; [reflexivity|].
  intros Hc row _ Ht. now apply F64Facts.remainder_in_half_open.
Qed.

(** C5 (amended).  A cycle length that is zero or negative is not rejected:
    for every stride other than zero the callback returns the complete
    triple, the phases being date % cycle length as the float remainder
    computes them; with a cycle length of zero every phase is NaN. *)
Theorem nonpositive_cycle_length_folds yv n c s :
  n <> 0 -> SFleb c F64.pzero = true ->
  exists f vf lbl s' pts,
    _refresh_plots float_repr yv n c s = (Returns (f, vf, lbl), s') /\
    data vf = [pts] /\
    x pts = map (fun row => F64.remainder (Date_in_Fraction_of_Year row) c)
                (rows (df s)) /\
    y pts = map Monthly_Mean (rows (df s)) /\
    (F64.truthy c = false -> x pts = map (fun _ => F64.nan) (rows (df s))).
Proof.
  intros Hn _. rewrite refresh_eq. cbv zeta.
  destruct (slice_step (rows (df s)) n) as [sm|e] eqn:Hsm.
  2:{ unfold slice_step in Hsm. destruct (Z.eqb_spec n 0); [lia|discriminate]. }
  do 5 eexists. split; [reflexivity|].
  cbn [px_scatter data]. split; [reflexivity|].
  cbn [x y rows Variability].
  split; [reflexivity|]. split; [reflexivity|].
  intros Hz. destruct c as [sz| | |]; try discriminate.
  unfold apply_modulo. apply map_ext. intros row.
  apply F64Facts.remainder_zero_divisor.
Qed.

(** C6 (amended).  A stride of zero makes the callback raise the slice's
    [ValueError] before the dataframe is touched, which stays as it was.  A
    negative stride is not rejected: the callback returns, the overlay
    holding ceil(rows / -n) points taken from the last row downwards, and
    the parsed rows stay as they were. *)
Theorem nonpositive_stride yv n c s :
  n <= 0 ->
  (n = 0 ->
     fst (_refresh_plots float_repr yv n c s)
       = Raises (ValueError "slice step cannot be zero") /\
     df (snd (_refresh_plots float_repr yv n c s)) = df s) /\
  (n < 0 ->
     exists f vf lbl s' overlay,
       _refresh_plots float_repr yv n c s = (Returns (f, vf, lbl), s') /\
       data f = (firstn 1 (data (fig s)) ++ [overlay])%list /\
       Z.of_nat (List.length (x overlay))
         = ceil_div (Z.of_nat (List.length (rows (df s)))) (- n) /\
       (forall i, (i < List.length (x overlay))%nat ->
          exists row,
            nth_error (rows (df s))
              (List.length (rows (df s)) - 1 - i * Z.to_nat (- n)) = Some row /\
            nth_error (x overlay) i = Some (Date_in_Fraction_of_Year row) /\
            nth_error (y overlay) i = Some (Monthly_Mean row)) /\
       rows (df s') = rows (df s)).
Proof.
  intros _. split.
  - intros ->. rewrite refresh_eq. cbv zeta. split; reflexivity.
  - intros Hn. rewrite refresh_eq. cbv zeta.
    destruct (SliceFacts.slice_step_neg (rows (df s)) n Hn)
      as (sm & Hsm & Hlen & Hnth).
    rewrite Hsm. do 5 eexists. split; [reflexivity|].
    cbn [data]. split; [reflexivity|]. cbn [x y df rows].
    rewrite !length_map. split; [exact Hlen|]. split; [|reflexivity].
    intros i Hi. specialize (Hnth i Hi).
    destruct (nth_error sm i) as [row|] eqn:Ei.
    2:{ apply nth_error_None in Ei. lia. }
    exists row. split; [now rewrite <- Hnth|].
    rewrite !nth_error_map, Ei. split; reflexivity.
Qed.

(** C7 (amended).  The window bounds are not compared: for every pair of
    bounds, in either order, and every stride other than zero, the callback
    returns the label "You are currently viewing the years <lo> to <hi>!"
    with both bounds as given, and sets the x-axis range to the same two
    bounds, unclamped. *)
Theorem label_embeds_bounds_unchecked lo hi n c s :
  n <> 0 ->
  exists f vf s',
    _refresh_plots float_repr (lo, hi) n c s =
      (Returns (f, vf,
                "You are currently viewing the years " ++ str float_repr lo
                ++ " to " ++ str float_repr hi ++ "!"), s') /\
    xaxis_range f = Some (lo, hi).
Proof.
  intros Hn. rewrite refresh_eq. cbv zeta.
  destruct (slice_step (rows (df s)) n) as [sm|e] eqn:Hsm.
  2:{ unfold slice_step in Hsm. destruct (Z.eqb_spec n 0); [lia|discriminate]. }
  do 3 eexists. split; reflexivity.
Qed.

(** C3 (amended).  Whatever events came before, and whether the callback
    returns or raises, the parsed rows of the dataframe (the seven loaded
    columns, row by row and in order) are afterwards what they were at load
    time.  The derived column [Variability] of the same dataframe and the
    shared figure are not covered: the callback overwrites them and they
    persist between calls. *)
Theorem refresh_keeps_parsed_rows csv evs yv n c :
  rows (df (snd (_refresh_plots float_repr yv n c
                   (run float_repr evs (loaded csv))))) = csv.
Proof.
  apply (kept_refresh float_repr csv yv n c).
  apply kept_run, kept_loaded.
Qed.

(** C4.  Two invocations with the same window, stride and cycle length give
    the same result (the same two figures and label, or the same exception),
    whatever events were dispatched before the first one and between the
    two. *)
Theorem refresh_deterministic_in_params csv before between yv n c :
  let s1 := run float_repr before (loaded csv) in
  let s2 := run float_repr between
              (snd (_refresh_plots float_repr yv n c s1)) in
  fst (_refresh_plots float_repr yv n c s2)
    = fst (_refresh_plots float_repr yv n c s1).
Proof.
  intros s1 s2. apply (refresh_result_kept float_repr csv).
  - apply kept_run, kept_refresh, kept_run, kept_loaded.
  - apply kept_run, kept_loaded.
Qed.

(** C10 (amended).  Whatever events came before, the figure an invocation
    leaves starts with the line trace over the full series that it was built
    with and holds at most two traces, so overlays never pile up.  When the
    invocation returns, it holds exactly two, the second being the smoothed
    overlay this invocation added from its own stride, and the returned
    figure holds the same two.  When the invocation raises, it holds the
    line trace alone. *)
Theorem refresh_leaves_two_traces csv evs yv n c :
  let r := _refresh_plots float_repr yv n c
             (run float_repr evs (loaded csv)) in
  exists line,
    data (fig_loaded csv) = [line] /\
    nth_error (data (fig (snd r))) 0 = Some line /\
    (List.length (data (fig (snd r))) <= 2)%nat /\
    (forall out, fst r = Returns out ->
      exists overlay smoothed_df,
        data (fig (snd r)) = [line; overlay] /\
        slice_step csv n = Returns smoothed_df /\
        x overlay = map Date_in_Fraction_of_Year smoothed_df /\
        y overlay = map Monthly_Mean smoothed_df /\
        name overlay = "Smoothed" /\
        data (fst (fst out)) = data (fig (snd r))) /\
    (forall e, fst r = Raises e -> n = 0 /\ data (fig (snd r)) = [line]).
Proof.
  pose proof (kept_run float_repr csv evs _ (kept_loaded csv))
    as (Hr & Hd & _).
  cbv zeta. rewrite refresh_eq. cbv zeta. rewrite Hr, Hd.
  eexists. split; [reflexivity|].
  destruct (slice_step csv n) as [sm|e0] eqn:Hsm;
    cbn [fst snd fig data fig_loaded px_line app].
  - split; [reflexivity|]. split; [cbn; lia|]. split; [|discriminate].
    intros out H. inversion H; subst; clear H.
    do 2 eexists. cbn [data fst].
    split; [reflexivity|]. split; [reflexivity|]. repeat split.
  - split; [reflexivity|]. split; [cbn; lia|]. split; [discriminate|].
    intros e _. split; [|reflexivity].
    destruct (Z.eq_dec n 0) as [Hz|Hnz]; [exact Hz|].
    destruct (SliceFacts.slice_step_returns csv n Hnz) as (sm & Hret).
    rewrite Hret in Hsm. discriminate.
Qed.

(** C8.  On a series of three rows with dates 0, 1, 2 and monthly means 10,
    20, 30, one invocation with window (0, 2), stride 2 and cycle length 1.0
    returns the overlay points (0, 10) and (2, 30), the folded phases 0.0,
    0.0, 0.0 against the means 10, 20, 30 in row order, and a label in which
    both "0" and "2" occur. *)
Theorem end_to_end_three_rows csv :
  map (fun row => (Date_in_Fraction_of_Year row, Monthly_Mean row)) csv
    = [(F64.of_Z 0, F64.of_Z 10); (F64.of_Z 1, F64.of_Z 20);
       (F64.of_Z 2, F64.of_Z 30)] ->
  exists f vf lbl s' line overlay pts,
    _refresh_plots float_repr (PyInt 0, PyInt 2) 2 (F64.of_Z 1) (loaded csv)
      = (Returns (f, vf, lbl), s') /\
    data f = [line; overlay] /\
    combine (x overlay) (y overlay)
      = [(F64.of_Z 0, F64.of_Z 10); (F64.of_Z 2, F64.of_Z 30)] /\
    data vf = [pts] /\
    x pts = [S754_zero false; S754_zero false; S754_zero false] /\
    y pts = [F64.of_Z 10; F64.of_Z 20; F64.of_Z 30] /\
    contains "0" lbl = true /\ contains "2" lbl = true.
Proof.
  intros Hcsv.
  destruct csv as [|r0 [|r1 [|r2 [|r3 rest]]]]; try discriminate.
  cbn [map] in Hcsv.
  injection Hcsv as Ht0 Hv0 Ht1 Hv1 Ht2 Hv2.
  rewrite refresh_eq. cbv zeta.
  cbn [loaded df df_loaded rows fig fig_loaded px_line data firstn fst snd].
  change (slice_step [r0; r1; r2] 2) with (Returns [r0; r2]).
  do 7 eexists. split; [reflexivity|].
  cbn [data app]. split; [reflexivity|].
  cbn [x y map combine]. rewrite Ht0, Hv0, Ht2, Hv2.
  split; [reflexivity|].
  cbn [px_scatter data]. split; [reflexivity|].
  unfold apply_modulo. cbn [x y map rows df_loaded].
  rewrite Ht0, Ht1, Ht2, Hv0, Hv1, Hv2.
  repeat split; reflexivity.
Qed.

(** C9 (amended).  What is built at load time, against the starting values
    of the sliders (window 1749 to 2022, stride 5, cycle length 11.0).  The
    load-time label is the one written from the default window, and the
    load-time scatter figure holds, under a title naming 11.0, the points
    (date % 11.0, monthly mean) of all rows.  The load-time line figure
    holds the line trace over all rows and nothing else: no overlay and no
    x-axis range, so neither the default stride nor the default window
    enters it.  The first invocation with the default values on the loaded
    store returns the load-time label, the x-axis range 1749 to 2022, the
    line trace followed by the overlay of every fifth row, and the same
    folded points as at load time. *)
Theorem defaults_and_initial_views csv :
  year_label_loaded
    = "You are currently viewing the years "
      ++ str float_repr (fst year_slider_default)
      ++ " to " ++ str float_repr (snd year_slider_default) ++ "!" /\
  (exists q, F64.to_Q cycle_len_default = Some q /\ (q == 11)%Q) /\
  title (var_fig_loaded csv)
    = "Variability, Sunspot Cycle Length: 11.0 Years" /\
  (exists pts0,
     data (var_fig_loaded csv) = [pts0] /\
     x pts0 = map (fun row =>
                     F64.remainder (Date_in_Fraction_of_Year row)
                       cycle_len_default) csv /\
     y pts0 = map Monthly_Mean csv) /\
  (exists line0,
     data (fig (loaded csv)) = [line0] /\
     x line0 = map Date_in_Fraction_of_Year csv /\
     y line0 = map Monthly_Mean csv) /\
  xaxis_range (fig (loaded csv)) = None /\
  exists f vf s' line overlay pts,
    _refresh_plots float_repr year_slider_default smoothness_default
      cycle_len_default (loaded csv)
      = (Returns (f, vf, year_label_loaded), s') /\
    xaxis_range f = Some (PyInt 1749, PyInt 2022) /\
    data f = [line; overlay] /\
    data (fig (loaded csv)) = [line] /\
    Z.of_nat (List.length (x overlay))
      = ceil_div (Z.of_nat (List.length csv)) 5 /\
    List.length (y overlay) = List.length (x overlay) /\
    (forall i, (i < List.length (x overlay))%nat ->
       exists row, nth_error csv (i * 5) = Some row /\
         nth_error (x overlay) i = Some (Date_in_Fraction_of_Year row) /\
         nth_error (y overlay) i = Some (Monthly_Mean row)) /\
    data vf = [pts] /\
    x pts = map (fun row =>
                   F64.remainder (Date_in_Fraction_of_Year row)
                     cycle_len_default) csv /\
    y pts = map Monthly_Mean csv.
Proof.
  split; [reflexivity|].
  split. { eexists. split; [reflexivity|]. reflexivity. }
  split; [reflexivity|].
  split. { eexists. split; [reflexivity|]. split; reflexivity. }
  split. { eexists. split; [reflexivity|]. split; reflexivity. }
  split; [reflexivity|].
  rewrite refresh_eq. cbv zeta.
  destruct (SliceFacts.slice_step_pos csv 5 ltac:(lia))
    as (sm & Hsm & Hlen & Hnth).
  unfold smoothness_default. cbn [loaded df df_loaded rows]. rewrite Hsm.
  do 6 eexists. split; [reflexivity|].
  split; [reflexivity|]. cbn [data fig fig_loaded px_line firstn app].
  split; [reflexivity|]. split; [reflexivity|].
  cbn [x y]. rewrite !length_map.
  split; [exact Hlen|]. split; [reflexivity|]. split.
  - intros i Hi. specialize (Hnth i Hi).
    change (Z.to_nat 5) with 5%nat in Hnth.
    destruct (nth_error sm i) as [row|] eqn:Ei.
    2:{ apply nth_error_None in Ei. lia. }
    exists row. split; [now rewrite <- Hnth|].
    rewrite !nth_error_map, Ei. split; reflexivity.
  - cbn [px_scatter data]. split; [reflexivity|]. split; reflexivity.
Qed.

End Claims.

(** ** The claims at concrete inputs *)

(** C2 on the first three rows with stride 2: two overlay points. *)
Lemma resample_every_stride_th_row_witness :
  1 <= 2 /\
  exists f vf lbl s' overlay,
    _refresh_plots Sample.repr_whole (PyInt 1749, PyInt 2022) 2 (F64.of_Z 11)
      (loaded Sample.first_rows) = (Returns (f, vf, lbl), s') /\
    data f = (firstn 1 (data (fig (loaded Sample.first_rows)))
              ++ [overlay])%list /\
    Z.of_nat (List.length (x overlay)) = ceil_div 3 2.
Proof.
  split; [lia|].
  destruct (resample_every_stride_th_row Sample.repr_whole
              (PyInt 1749, PyInt 2022) 2 (F64.of_Z 11)
              (loaded Sample.first_rows) ltac:(lia))
    as (f & vf & lbl & s' & overlay & H1 & H2 & H3 & _).
  exists f, vf, lbl, s', overlay. repeat split; assumption.
Defined.

(** C1 as stated fails on a line whose date reads [-1e-20], with cycle
    length 1.0: the remainder is [-1e-20], the sum with 1.0 rounds to 1.0,
    so the phase is the cycle length itself. *)
Lemma fold_phase_reaches_cycle_length :
  F64.finite_pos (F64.of_Z 1) = true /\
  exists f vf lbl s' pts,
    _refresh_plots Sample.repr_whole (PyInt 1749, PyInt 2022) 5 (F64.of_Z 1)
      (loaded [Sample.tiny_negative_row]) = (Returns (f, vf, lbl), s') /\
    data vf = [pts] /\
    x pts = [F64.of_Z 1] /\
    ~ F64.in_half_open (F64.of_Z 1) (F64.of_Z 1).
Proof.
  split; [reflexivity|].
  do 5 eexists. split; [vm_compute; reflexivity|].
  split; [reflexivity|]. split; [reflexivity|].
  apply F64Facts.not_in_half_open_self.
Qed.

(** C1 (amended) on the first three rows with the default cycle length. *)
Lemma fold_points_and_phase_range_witness :
  5 <> 0 /\
  exists f vf lbl s' pts,
    _refresh_plots Sample.repr_whole (PyInt 1749, PyInt 2022) 5 (F64.of_Z 11)
      (loaded Sample.first_rows) = (Returns (f, vf, lbl), s') /\
    data vf = [pts] /\
    y pts = map Monthly_Mean Sample.first_rows /\
    Forall (fun phase => F64.in_half_open phase (F64.of_Z 11)) (x pts).
Proof.
  split; [lia|].
  destruct (fold_points_and_phase_range Sample.repr_whole
              (PyInt 1749, PyInt 2022) 5 (F64.of_Z 11)
              (loaded Sample.first_rows) ltac:(lia))
    as (f & vf & lbl & s' & pts & H1 & H2 & H3 & H4 & H5).
  exists f, vf, lbl, s', pts. repeat split; try assumption.
  rewrite H3. apply Forall_map, Forall_forall. intros row Hrow.
  apply H5; [reflexivity | exact Hrow |].
  cbn in Hrow. destruct Hrow as [<-|[<-|[<-|[]]]]; reflexivity.
Defined.

(** C3 as stated fails: one invocation with cycle length 7.0 leaves a
    dataframe and a figure that differ from the loaded ones. *)
Lemma refresh_overwrites_dataframe :
  df (Sample.after_cycle_7) <> df (loaded Sample.first_rows) /\
  Variability (df Sample.after_cycle_7)
    = map (fun row => F64.remainder (Date_in_Fraction_of_Year row) (F64.of_Z 7))
          Sample.first_rows /\
  List.length (data (fig Sample.after_cycle_7)) = 2%nat /\
  List.length (data (fig (loaded Sample.first_rows))) = 1%nat.
Proof.
  split.
  - intros H. apply (f_equal Variability) in H. vm_compute in H. discriminate.
  - repeat split.
Qed.

(** C5 as stated fails: a cycle length of -1.0 and one of 0.0 both make the
    callback return, the latter with NaN for every phase. *)
Lemma nonpositive_cycle_length_returns :
  SFleb (F64.of_Z (-1)) F64.pzero = true /\
  (exists out s',
     _refresh_plots Sample.repr_whole (PyInt 1749, PyInt 2022) 5
       (F64.of_Z (-1)) (loaded Sample.first_rows) = (Returns out, s')) /\
  exists f vf lbl s' pts,
    _refresh_plots Sample.repr_whole (PyInt 1749, PyInt 2022) 5
      F64.pzero (loaded Sample.first_rows) = (Returns (f, vf, lbl), s') /\
    data vf = [pts] /\ x pts = [F64.nan; F64.nan; F64.nan].
Proof.
  split; [reflexivity|]. split.
  - do 2 eexists. vm_compute. reflexivity.
  - do 5 eexists. split; [vm_compute; reflexivity|]. split; reflexivity.
Qed.

(** C5 (amended) at a cycle length of zero. *)
Lemma nonpositive_cycle_length_folds_witness :
  5 <> 0 /\ SFleb F64.pzero F64.pzero = true /\
  exists f vf lbl s' pts,
    _refresh_plots Sample.repr_whole (PyInt 1749, PyInt 2022) 5 F64.pzero
      (loaded Sample.first_rows) = (Returns (f, vf, lbl), s') /\
    data vf = [pts] /\
    x pts = map (fun _ => F64.nan) Sample.first_rows.
Proof.
  split; [lia|]. split; [reflexivity|].
  destruct (nonpositive_cycle_length_folds Sample.repr_whole
              (PyInt 1749, PyInt 2022) 5 F64.pzero
              (loaded Sample.first_rows) ltac:(lia) eq_refl)
    as (f & vf & lbl & s' & pts & H1 & H2 & _ & _ & H5).
  exists f, vf, lbl, s', pts. repeat split; try assumption.
  apply H5. reflexivity.
Defined.

(** C6 as stated fails: with a stride of -1 the callback returns, the
    overlay running through the rows backwards. *)
Lemma negative_stride_returns :
  exists f vf lbl s' line overlay,
    _refresh_plots Sample.repr_whole (PyInt 1749, PyInt 2022) (-1)
      (F64.of_Z 11) (loaded Sample.first_rows) = (Returns (f, vf, lbl), s') /\
    data f = [line; overlay] /\
    x overlay = rev (map Date_in_Fraction_of_Year Sample.first_rows) /\
    y overlay = rev (map Monthly_Mean Sample.first_rows).
Proof.
  do 6 eexists. split; [vm_compute; reflexivity|].
  split; [reflexivity|]. split; reflexivity.
Qed.

(** C6 (amended) at a stride of zero. *)
Lemma nonpositive_stride_witness :
  0 <= 0 /\
  fst (_refresh_plots Sample.repr_whole (PyInt 1749, PyInt 2022) 0
         (F64.of_Z 11) (loaded Sample.first_rows))
    = Raises (ValueError "slice step cannot be zero") /\
  df (snd (_refresh_plots Sample.repr_whole (PyInt 1749, PyInt 2022) 0
             (F64.of_Z 11) (loaded Sample.first_rows)))
    = df (loaded Sample.first_rows).
Proof.
  split; [lia|].
  apply (proj1 (nonpositive_stride Sample.repr_whole (PyInt 1749, PyInt 2022)
                  0 (F64.of_Z 11) (loaded Sample.first_rows) ltac:(lia))).
  reflexivity.
Defined.

(** C7 as stated fails: a window whose start lies above its end makes the
    callback return a label, with the bounds in the order given. *)
Lemma reversed_window_returns_label :
  exists f vf s',
    _refresh_plots Sample.repr_whole (PyInt 2022, PyInt 1749) 5 (F64.of_Z 11)
      (loaded Sample.first_rows)
    = (Returns (f, vf, "You are currently viewing the years 2022 to 1749!"),
       s') /\
    xaxis_range f = Some (PyInt 2022, PyInt 1749).
Proof.
  do 3 eexists. split; [vm_compute; reflexivity|]. reflexivity.
Qed.

(** C7 (amended) on a window that reaches beyond the year slider. *)
Lemma label_embeds_bounds_unchecked_witness :
  5 <> 0 /\
  exists f vf s',
    _refresh_plots Sample.repr_whole (PyInt 1000, PyInt 3000) 5 (F64.of_Z 11)
      (loaded Sample.first_rows)
    = (Returns (f, vf, "You are currently viewing the years 1000 to 3000!"),
       s') /\
    xaxis_range f = Some (PyInt 1000, PyInt 3000).
Proof.
  split; [lia|].
  apply (label_embeds_bounds_unchecked Sample.repr_whole (PyInt 1000)
           (PyInt 3000) 5 (F64.of_Z 11) (loaded Sample.first_rows)).
  lia.
Defined.

(** C9 as stated fails: the line figure built at load time is not the one
    the callback computes from the default values; it holds one trace, not
    two, and has no x-axis range. *)
Lemma load_time_line_figure_lacks_defaults :
  exists f vf lbl s',
    _refresh_plots Sample.repr_whole year_slider_default smoothness_default
      cycle_len_default (loaded Sample.first_rows)
      = (Returns (f, vf, lbl), s') /\
    fig (loaded Sample.first_rows) <> f /\
    List.length (data (fig (loaded Sample.first_rows))) = 1%nat /\
    List.length (data f) = 2%nat /\
    xaxis_range (fig (loaded Sample.first_rows)) = None /\
    xaxis_range f = Some (PyInt 1749, PyInt 2022).
Proof.
  do 4 eexists. split; [vm_compute; reflexivity|].
  split; [|repeat split].
  intros H. apply (f_equal xaxis_range) in H. discriminate.
Qed.

(** C10 as stated fails: an invocation with stride zero raises after the
    traces were cut, and leaves one trace, not two. *)
Lemma zero_stride_leaves_one_trace :
  fst (_refresh_plots Sample.repr_whole (PyInt 1749, PyInt 2022) 0
         (F64.of_Z 11) (loaded Sample.first_rows))
    = Raises (ValueError "slice step cannot be zero") /\
  List.length
    (data (fig (snd (_refresh_plots Sample.repr_whole (PyInt 1749, PyInt 2022)
                       0 (F64.of_Z 11) (loaded Sample.first_rows)))))
    = 1%nat /\
  List.length
    (data (fig (snd (_refresh_plots Sample.repr_whole (PyInt 1749, PyInt 2022)
                       0 (F64.of_Z 11)
                       (run Sample.repr_whole Sample.earlier_events
                          (loaded Sample.first_rows))))))
    = 1%nat.
Proof. repeat split. Qed.

(** C8 on the synthetic series. *)
Lemma end_to_end_three_rows_witness :
  map (fun row => (Date_in_Fraction_of_Year row, Monthly_Mean row))
      Sample.three_rows
    = [(F64.of_Z 0, F64.of_Z 10); (F64.of_Z 1, F64.of_Z 20);
       (F64.of_Z 2, F64.of_Z 30)] /\
  exists f vf lbl s',
    _refresh_plots Sample.repr_whole (PyInt 0, PyInt 2) 2 (F64.of_Z 1)
      (loaded Sample.three_rows) = (Returns (f, vf, lbl), s') /\
    lbl = "You are currently viewing the years 0 to 2!" /\
    title vf = "Variability, Sunspot Cycle Length: 1.0 Years".
Proof.
  split; [reflexivity|].
  destruct (end_to_end_three_rows Sample.repr_whole Sample.three_rows eq_refl)
    as (f & vf & lbl & s' & line & overlay & pts & H1 & _).
  exists f, vf, lbl, s'. split; [exact H1|].
  vm_compute in H1. inversion H1; subst. split; reflexivity.
Defined.

(** C10 after three earlier events, one of which raised. *)
Lemma refresh_leaves_two_traces_witness :
  exists out line overlay,
    fst (_refresh_plots Sample.repr_whole (PyInt 1749, PyInt 2022) 2
           (F64.of_Z 11)
           (run Sample.repr_whole Sample.earlier_events
              (loaded Sample.first_rows))) = Returns out /\
    data (fig (snd (_refresh_plots Sample.repr_whole (PyInt 1749, PyInt 2022)
                      2 (F64.of_Z 11)
                      (run Sample.repr_whole Sample.earlier_events
                         (loaded Sample.first_rows)))))
      = [line; overlay] /\
    data (fig_loaded Sample.first_rows) = [line] /\
    name overlay = "Smoothed".
Proof.
  destruct (refresh_leaves_two_traces Sample.repr_whole Sample.first_rows
              Sample.earlier_events (PyInt 1749, PyInt 2022) 2 (F64.of_Z 11))
    as (line & H1 & _ & _ & H4 & _).
  destruct (fst (_refresh_plots Sample.repr_whole (PyInt 1749, PyInt 2022) 2
                   (F64.of_Z 11)
                   (run Sample.repr_whole Sample.earlier_events
                      (loaded Sample.first_rows)))) as [out|e] eqn:E.
  2:{ vm_compute in E. discriminate. }
  destruct (H4 out eq_refl) as (overlay & sm & H5 & _ & _ & _ & H6 & _).
  exists out, line, overlay. repeat split; assumption.
Defined.

(** ** Further facts about the callback *)

Section Store.
Variable float_repr : F64.float -> string.

(** After an event that returns, the store is fixed by the event and by what
    is kept. *)
Lemma refresh_store_kept csv yv n c s1 s2 :
  n <> 0 -> kept csv s1 -> kept csv s2 ->
  snd (_refresh_plots float_repr yv n c s1)
  = snd (_refresh_plots float_repr yv n c s2).
Proof.
  intros Hn (Hr1 & Hd1 & Ht1 & Hx1 & Hy1) (Hr2 & Hd2 & Ht2 & Hx2 & Hy2).
  rewrite !refresh_eq. cbv zeta. unfold apply_modulo.
  rewrite Hr1, Hr2, Hd1, Hd2, Ht1, Ht2, Hx1, Hx2, Hy1, Hy2.
  destruct (SliceFacts.slice_step_returns csv n Hn) as (sm & ->).
  reflexivity.
Qed.

(** X1.  An event whose stride is not zero wipes out the history: after any
    sequence of earlier events, returning or raising, the dataframe and the
    figure are exactly what the same event leaves when it is the first one
    after loading. *)
Theorem returning_event_resets_store csv evs yv n c :
  n <> 0 ->
  run float_repr (evs ++ [(yv, n, c)]) (loaded csv)
  = dispatch float_repr (loaded csv) (yv, n, c).
Proof.
  intros Hn. unfold run. rewrite fold_left_app. cbn [fold_left dispatch].
  apply (refresh_store_kept csv); [exact Hn | | apply kept_loaded].
  apply kept_run, kept_loaded.
Qed.

(** X2.  An event with stride zero is not rolled back: when the callback
    raises, the overlay of the event before is already gone (the figure holds
    the line trace alone), the x-axis range is already the one of the failed
    event, and the dataframe, folded column included, is the one from before
    the event. *)
Theorem zero_stride_event_partial_update csv evs yv c :
  let s := run float_repr evs (loaded csv) in
  let s' := snd (_refresh_plots float_repr yv 0 c s) in
  data (fig s') = data (fig_loaded csv) /\
  xaxis_range (fig s') = Some (fst yv, snd yv) /\
  df s' = df s.
Proof.
  pose proof (kept_run float_repr csv evs _ (kept_loaded csv))
    as (_ & Hd & _).
  cbv zeta. rewrite refresh_eq. cbv zeta.
  cbn [slice_step Z.eqb snd fig df data xaxis_range].
  repeat split. exact Hd.
Qed.

(** X3.  The three sliders do not interfere.  Of two invocations on the same
    store that both return: the same stride gives the same traces in the line
    figure, whatever the two windows (no point is ever cropped to the
    window); the same window and stride give the same line figure, whatever
    the cycle lengths; the same cycle length gives the same scatter figure,
    whatever the windows and strides; and the same window gives the same
    label. *)
Theorem sliders_do_not_interfere s yv1 n1 c1 yv2 n2 c2
    f1 vf1 lbl1 s1 f2 vf2 lbl2 s2 :
  _refresh_plots float_repr yv1 n1 c1 s = (Returns (f1, vf1, lbl1), s1) ->
  _refresh_plots float_repr yv2 n2 c2 s = (Returns (f2, vf2, lbl2), s2) ->
  (n1 = n2 -> data f1 = data f2) /\
  (yv1 = yv2 -> n1 = n2 -> f1 = f2) /\
  (c1 = c2 -> vf1 = vf2) /\
  (yv1 = yv2 -> lbl1 = lbl2).
Proof.
  rewrite !refresh_eq. cbv zeta.
  destruct (slice_step (rows (df s)) n1) as [sm1|e1] eqn:E1; [|discriminate].
  destruct (slice_step (rows (df s)) n2) as [sm2|e2] eqn:E2; [|discriminate].
  intros H1 H2. inversion H1; subst; clear H1. inversion H2; subst; clear H2.
  cbn [data]. repeat split.
  - intros ->. rewrite E1 in E2. inversion E2. reflexivity.
  - intros -> ->. rewrite E1 in E2. inversion E2. reflexivity.
  - intros ->. reflexivity.
  - intros ->. reflexivity.
Qed.

End Store.

(** X1 with two earlier events, one of them raising. *)
Lemma returning_event_resets_store_witness :
  2 <> 0 /\
  run Sample.repr_whole
    (Sample.earlier_events ++ [((PyInt 1749, PyInt 2022), 2, F64.of_Z 11)])
    (loaded Sample.first_rows)
  = dispatch Sample.repr_whole (loaded Sample.first_rows)
      ((PyInt 1749, PyInt 2022), 2, F64.of_Z 11).
Proof.
  split; [lia|].
  apply (returning_event_resets_store Sample.repr_whole). lia.
Defined.

(** X3 on the default event and one with another window and cycle length. *)
Lemma sliders_do_not_interfere_witness :
  exists f1 vf1 lbl1 s1 f2 vf2 lbl2 s2,
    _refresh_plots Sample.repr_whole (PyInt 1749, PyInt 2022) 5 (F64.of_Z 11)
      (loaded Sample.first_rows) = (Returns (f1, vf1, lbl1), s1) /\
    _refresh_plots Sample.repr_whole (PyInt 1900, PyInt 1950) 5 (F64.of_Z 7)
      (loaded Sample.first_rows) = (Returns (f2, vf2, lbl2), s2) /\
    data f1 = data f2.
Proof.
  do 8 eexists.
  split; [vm_compute; reflexivity|]. split; [vm_compute; reflexivity|].
  refine (proj1 (sliders_do_not_interfere Sample.repr_whole
                   (loaded Sample.first_rows)
                   (PyInt 1749, PyInt 2022) 5 (F64.of_Z 11)
                   (PyInt 1900, PyInt 1950) 5 (F64.of_Z 7)
                   _ _ _ _ _ _ _ _ _ _) eq_refl);
    vm_compute; reflexivity.
Defined.

(** ** Sorted lists and slices *)

Module SortedFacts.

Lemma StronglySorted_nth_error {A : Type} (R : A -> A -> Prop) (l : list A) :
  Sorted.StronglySorted R l <->
  (forall i j a b, (i < j)%nat ->
     nth_error l i = Some a -> nth_error l j = Some b -> R a b).
Proof.
  split.
  - induction 1 as [|a0 l Hs IH Hall]; intros i j a b Hij Hi Hj.
    + destruct i; discriminate.
    + destruct j as [|j]; [lia|]. cbn in Hj. destruct i as [|i].
      * cbn in Hi. inversion Hi; subst.
        rewrite Forall_forall in Hall. apply Hall.
        eapply nth_error_In; eassumption.
      * cbn in Hi. apply (IH i j); [lia | assumption | assumption].
  - induction l as [|a0 l IH]; intros H; constructor.
    + apply IH. intros i j a b Hij Hi Hj.
      apply (H (S i) (S j)); [lia | assumption | assumption].
    + apply Forall_forall. intros b Hb.
      destruct (In_nth_error _ _ Hb) as [j Hj].
      apply (H 0%nat (S j)); [lia | reflexivity | assumption].
Qed.

End SortedFacts.

Section Overlay.
Variable float_repr : F64.float -> string.

(** X4.  No position of the smoothness and cycle sliders makes the callback
    raise: for a stride from 1 to 25 and a cycle length from 1.0 to 100.0 it
    returns; the overlay starts at the first row of the table; and the phase
    of every row whose date is finite and not negative lies in the half-open
    interval from 0 to the cycle length. *)
Theorem slider_events_return yv n c s :
  on_smoothness_slider n = true -> on_cycle_len_slider c = true ->
  exists f vf lbl s' overlay pts,
    _refresh_plots float_repr yv n c s = (Returns (f, vf, lbl), s') /\
    data f = (firstn 1 (data (fig s)) ++ [overlay])%list /\
    data vf = [pts] /\
    (forall row rest, rows (df s) = row :: rest ->
       exists xs ys,
         x overlay = Date_in_Fraction_of_Year row :: xs /\
         y overlay = Monthly_Mean row :: ys) /\
    (forall i row, nth_error (rows (df s)) i = Some row ->
       F64.finite_nonneg (Date_in_Fraction_of_Year row) = true ->
       exists phase, nth_error (x pts) i = Some phase /\
                     F64.in_half_open phase c).
Proof.
  unfold on_smoothness_slider, on_cycle_len_slider, smoothness_min,
    smoothness_max.
  intros Hn Hc. apply andb_prop in Hn as [Hn1 Hn2].
  apply Z.leb_le in Hn1, Hn2.
  assert (Hpos : F64.finite_pos c = true).
  { apply andb_prop in Hc as [Hc1 Hc2].
    destruct c as [[]|[]| |[] m e]; try discriminate; reflexivity. }
  rewrite refresh_eq. cbv zeta.
  destruct (SliceFacts.slice_step_pos (rows (df s)) n Hn1)
    as (sm & Hsm & Hlen & Hnth).
  rewrite Hsm. do 6 eexists. split; [reflexivity|].
  cbn [data]. split; [reflexivity|].
  cbn [px_scatter data]. split; [reflexivity|].
  cbn [x y rows Variability]. split.
  - intros row rest Hrows. rewrite Hrows in Hlen, Hnth.
    pose proof (SliceFacts.ceil_div_spec
                  (Z.of_nat (List.length (row :: rest))) n ltac:(lia)) as Hcd.
    destruct sm as [|r0 sm'].
    { change (Z.of_nat (List.length (@nil Row))) with 0 in Hlen.
      rewrite <- Hlen in Hcd. cbn [List.length] in Hcd. lia. }
    specialize (Hnth 0%nat ltac:(cbn; lia)). cbn in Hnth.
    inversion Hnth; subst. do 2 eexists. split; reflexivity.
  - intros i row Hi Ht. unfold apply_modulo.
    rewrite nth_error_map, Hi. eexists. split; [reflexivity|].
    now apply F64Facts.remainder_in_half_open.
Qed.

(** X5.  The overlay keeps the order of the dates.  When the dates of the
    table are sorted by a relation [R] (each row related to every later
    one), the overlay's dates are sorted by [R] for a positive stride, and
    by the converse of [R] for a negative one. *)
Theorem overlay_keeps_date_order (R : F64.float -> F64.float -> Prop)
    yv n c s :
  n <> 0 ->
  Sorted.StronglySorted R (map Date_in_Fraction_of_Year (rows (df s))) ->
  exists f vf lbl s' overlay,
    _refresh_plots float_repr yv n c s = (Returns (f, vf, lbl), s') /\
    data f = (firstn 1 (data (fig s)) ++ [overlay])%list /\
    (0 < n -> Sorted.StronglySorted R (x overlay)) /\
    (n < 0 -> Sorted.StronglySorted (fun a b => R b a) (x overlay)).
Proof.
  intros Hn Hs.
  rewrite SortedFacts.StronglySorted_nth_error in Hs.
  rewrite refresh_eq. cbv zeta.
  destruct (SliceFacts.slice_step_returns (rows (df s)) n Hn) as (sm & Hsm).
  rewrite Hsm. do 5 eexists. split; [reflexivity|].
  cbn [data]. split; [reflexivity|]. cbn [x]. split.
  - intros Hp.
    destruct (SliceFacts.slice_step_pos (rows (df s)) n ltac:(lia))
      as (sm' & Hsm' & Hlen & Hnth).
    rewrite Hsm in Hsm'. inversion Hsm'; subst sm'. clear Hsm'.
    apply SortedFacts.StronglySorted_nth_error.
    intros i j a b Hij Hi Hj.
    rewrite nth_error_map in Hi, Hj.
    destruct (nth_error sm i) as [ri|] eqn:Ei; [|discriminate].
    destruct (nth_error sm j) as [rj|] eqn:Ej; [|discriminate].
    cbn in Hi, Hj. inversion Hi; subst. inversion Hj; subst.
    assert (Hli : (i < List.length sm)%nat)
      by (apply nth_error_Some; congruence).
    assert (Hlj : (j < List.length sm)%nat)
      by (apply nth_error_Some; congruence).
    rewrite (Hnth i Hli) in Ei. rewrite (Hnth j Hlj) in Ej.
    apply (Hs (i * Z.to_nat n)%nat (j * Z.to_nat n)%nat).
    + apply Nat.mul_lt_mono_pos_r; lia.
    + rewrite nth_error_map, Ei. reflexivity.
    + rewrite nth_error_map, Ej. reflexivity.
  - intros Hneg.
    destruct (SliceFacts.slice_step_neg (rows (df s)) n Hneg)
      as (sm' & Hsm' & Hlen & Hnth).
    rewrite Hsm in Hsm'. inversion Hsm'; subst sm'. clear Hsm'.
    pose proof (SliceFacts.ceil_div_spec
                  (Z.of_nat (List.length (rows (df s)))) (- n) ltac:(lia))
      as Hcd.
    apply SortedFacts.StronglySorted_nth_error.
    intros i j a b Hij Hi Hj.
    rewrite nth_error_map in Hi, Hj.
    destruct (nth_error sm i) as [ri|] eqn:Ei; [|discriminate].
    destruct (nth_error sm j) as [rj|] eqn:Ej; [|discriminate].
    cbn in Hi, Hj. inversion Hi; subst. inversion Hj; subst.
    assert (Hli : (i < List.length sm)%nat)
      by (apply nth_error_Some; congruence).
    assert (Hlj : (j < List.length sm)%nat)
      by (apply nth_error_Some; congruence).
    rewrite (Hnth i Hli) in Ei. rewrite (Hnth j Hlj) in Ej.
    apply (Hs (List.length (rows (df s)) - 1 - j * Z.to_nat (- n))%nat
              (List.length (rows (df s)) - 1 - i * Z.to_nat (- n))%nat).
    + assert (Hm : (0 < Z.to_nat (- n))%nat) by lia.
      assert (Hjm : (j * Z.to_nat (- n) < List.length (rows (df s)))%nat).
      { apply Nat2Z.inj_lt. rewrite Nat2Z.inj_mul, Z2Nat.id by lia. nia. }
      assert (Him : (i * Z.to_nat (- n) < j * Z.to_nat (- n))%nat)
        by (apply Nat.mul_lt_mono_pos_r; lia).
      lia.
    + rewrite nth_error_map, Ej. reflexivity.
    + rewrite nth_error_map, Ei. reflexivity.
Qed.

(** X6.  A stride at least as large as the table is long leaves one overlay
    point, the first row; a stride at most the negated length leaves one
    point too, the last row. *)
Theorem stride_beyond_table_length yv n c s :
  rows (df s) <> [] ->
  Z.of_nat (List.length (rows (df s))) <= Z.abs n ->
  exists f vf lbl s' overlay row,
    _refresh_plots float_repr yv n c s = (Returns (f, vf, lbl), s') /\
    data f = (firstn 1 (data (fig s)) ++ [overlay])%list /\
    x overlay = [Date_in_Fraction_of_Year row] /\
    y overlay = [Monthly_Mean row] /\
    nth_error (rows (df s))
      (if (0 <? n)%Z then 0%nat else (List.length (rows (df s)) - 1)%nat)
    = Some row.
Proof.
  intros Hne Hlen.
  assert (Hl : (0 < List.length (rows (df s)))%nat).
  { destruct (rows (df s)); [contradiction | cbn; lia]. }
  rewrite refresh_eq. cbv zeta.
  destruct (Z.ltb_spec 0 n) as [Hp|Hp].
  - destruct (SliceFacts.slice_step_pos (rows (df s)) n ltac:(lia))
      as (sm & Hsm & Hl' & Hnth).
    pose proof (SliceFacts.ceil_div_spec
                  (Z.of_nat (List.length (rows (df s)))) n ltac:(lia)) as Hcd.
    assert (Hone : List.length sm = 1%nat) by nia.
    destruct sm as [|r0 [|r1 sm']]; try discriminate.
    specialize (Hnth 0%nat ltac:(cbn; lia)). cbn in Hnth.
    rewrite Hsm. do 6 eexists. split; [reflexivity|].
    cbn [data]. split; [reflexivity|].
    cbn [x y map]. split; [reflexivity|]. split; [reflexivity|].
    symmetry. exact Hnth.
  - assert (Hneg : n < 0) by lia.
    destruct (SliceFacts.slice_step_neg (rows (df s)) n Hneg)
      as (sm & Hsm & Hl' & Hnth).
    pose proof (SliceFacts.ceil_div_spec
                  (Z.of_nat (List.length (rows (df s)))) (- n) ltac:(lia))
      as Hcd.
    assert (Hone : List.length sm = 1%nat) by nia.
    destruct sm as [|r0 [|r1 sm']]; try discriminate.
    specialize (Hnth 0%nat ltac:(cbn; lia)). cbn [nth_error] in Hnth.
    rewrite Hsm. do 6 eexists. split; [reflexivity|].
    cbn [data]. split; [reflexivity|].
    cbn [x y map]. split; [reflexivity|]. split; [reflexivity|].
    rewrite Hnth. f_equal. lia.
Qed.

End Overlay.

(** ** Further facts about the fold *)

Module FoldFacts.
Import F64.

Local Open Scope Q_scope.

(** A date that is NaN or infinite has NaN for its phase, whatever the cycle
    length. *)
Lemma remainder_nonfinite t c : is_finite t = false -> remainder t c = nan.
Proof.
  destruct t as [[]|[]| |[] mt et]; try discriminate; intros _;
    destruct c as [[]|[]| |[] mc ec]; reflexivity.
Qed.

(** A NaN cycle length gives NaN for every phase. *)
Lemma remainder_nan_divisor t : remainder t nan = nan.
Proof. destruct t as [[]|[]| |[] mt et]; reflexivity. Qed.

(** A whole multiple of a positive rational that is smaller than it in
    absolute value is zero. *)
Lemma small_multiple_zero (d : Z) (l r : Q) :
  0 < l -> r == inject_Z d * l -> - l < r -> r < l -> r == 0.
Proof.
  intros Hl Hr Hlo Hhi.
  destruct (Z.eq_dec d 0) as [->|Hd].
  - rewrite Hr. ring.
  - exfalso. destruct (Z_lt_le_dec d 0) as [Hneg|Hpos].
    + assert (H1 : inject_Z d <= -1).
      { change (-1) with (inject_Z (-1)). rewrite <- Zle_Qle. lia. }
      pose proof (Qmult_le_compat_r _ _ l H1 (Qlt_le_weak _ _ Hl)) as H2.
      lra.
    + assert (H1 : 1 <= inject_Z d).
      { change 1 with (inject_Z 1). rewrite <- Zle_Qle. lia. }
      pose proof (Qmult_le_compat_r _ _ l H1 (Qlt_le_weak _ _ Hl)) as H2.
      lra.
Qed.

(** X9.  The fold is periodic: two dates, finite and not negative, that lie
    a whole number of cycle lengths apart have the same phase, as numbers,
    for a finite positive cycle length. *)
Theorem remainder_periodic t1 t2 L x1 x2 l (j : Z) :
  finite_nonneg t1 = true -> finite_nonneg t2 = true ->
  finite_pos L = true ->
  to_Q t1 = Some x1 -> to_Q t2 = Some x2 -> to_Q L = Some l ->
  x1 == x2 + inject_Z j * l ->
  exists q1 q2,
    to_Q (remainder t1 L) = Some q1 /\ to_Q (remainder t2 L) = Some q2 /\
    q1 == q2.
Proof.
  intros Ht1 Ht2 HL Hx1 Hx2 Hl Hper.
  destruct (F64Facts.remainder_exact t1 L Ht1 HL)
    as (k1 & x1' & l1 & q1 & _ & Hx1' & Hl1 & Hq1 & He1).
  destruct (F64Facts.remainder_exact t2 L Ht2 HL)
    as (k2 & x2' & l2 & q2 & _ & Hx2' & Hl2 & Hq2 & He2).
  destruct (F64Facts.remainder_in_half_open t1 L Ht1 HL)
    as (q1' & l1' & Hq1' & Hl1' & Hlo1 & Hhi1).
  destruct (F64Facts.remainder_in_half_open t2 L Ht2 HL)
    as (q2' & l2' & Hq2' & Hl2' & Hlo2 & Hhi2).
  rewrite Hx1 in Hx1'. rewrite Hx2 in Hx2'.
  rewrite Hl in Hl1, Hl2, Hl1', Hl2'.
  rewrite Hq1 in Hq1'. rewrite Hq2 in Hq2'.
  inversion Hx1'; inversion Hx2'; inversion Hl1; inversion Hl2;
    inversion Hl1'; inversion Hl2'; inversion Hq1'; inversion Hq2'; subst.
  exists q1', q2'. split; [assumption|]. split; [assumption|].
  assert (Hl0 : 0 < l2') by lra.
  assert (Hd : q1' - q2' == inject_Z (j + k2 - k1) * l2').
  { replace (j + k2 - k1)%Z with (j + k2 + - k1)%Z by lia.
    rewrite !inject_Z_plus, inject_Z_opp. lra. }
  pose proof (small_multiple_zero _ _ _ Hl0 Hd ltac:(lra) ltac:(lra)).
  lra.
Qed.

End FoldFacts.

Section Fold.
Variable float_repr : F64.float -> string.

(** X10.  Missing dates fold to missing phases and raise nothing: in every
    invocation with a stride other than zero the callback returns, and the
    phase of a row whose date is NaN or infinite is NaN, as is every phase
    when the cycle length is NaN. *)
Theorem nonfinite_dates_fold_to_nan yv n c s :
  n <> 0 ->
  exists f vf lbl s' pts,
    _refresh_plots float_repr yv n c s = (Returns (f, vf, lbl), s') /\
    data vf = [pts] /\
    forall i row, nth_error (rows (df s)) i = Some row ->
      F64.is_finite (Date_in_Fraction_of_Year row) = false \/ c = F64.nan ->
      nth_error (x pts) i = Some F64.nan.
Proof.
  intros Hn. rewrite refresh_eq. cbv zeta.
  destruct (SliceFacts.slice_step_returns (rows (df s)) n Hn) as (sm & ->).
  do 5 eexists. split; [reflexivity|].
  cbn [px_scatter data]. split; [reflexivity|].
  cbn [x Variability]. intros i row Hi Hcase. unfold apply_modulo.
  rewrite nth_error_map, Hi. cbn. f_equal.
  destruct Hcase as [Ht| ->].
  - now apply FoldFacts.remainder_nonfinite.
  - apply FoldFacts.remainder_nan_divisor.
Qed.

(** X8.  The fold is exact where it matters: in an invocation that returns,
    with a finite positive cycle length, the phase of a row whose date is
    finite and not negative is the date less a whole number of cycle
    lengths, as numbers and with no rounding. *)
Theorem fold_phase_is_exact yv n c s :
  n <> 0 -> F64.finite_pos c = true ->
  exists f vf lbl s' pts,
    _refresh_plots float_repr yv n c s = (Returns (f, vf, lbl), s') /\
    data vf = [pts] /\
    forall i row, nth_error (rows (df s)) i = Some row ->
      F64.finite_nonneg (Date_in_Fraction_of_Year row) = true ->
      exists phase (k : Z) date cycle q,
        nth_error (x pts) i = Some phase /\
        F64.to_Q (Date_in_Fraction_of_Year row) = Some date /\
        F64.to_Q c = Some cycle /\
        F64.to_Q phase = Some q /\
        (0 <= k)%Z /\ (date == inject_Z k * cycle + q)%Q.
Proof.
  intros Hn Hc. rewrite refresh_eq. cbv zeta.
  destruct (SliceFacts.slice_step_returns (rows (df s)) n Hn) as (sm & ->).
  do 5 eexists. split; [reflexivity|].
  cbn [px_scatter data]. split; [reflexivity|].
  cbn [x Variability]. intros i row Hi Ht. unfold apply_modulo.
  destruct (F64Facts.remainder_exact _ c Ht Hc)
    as (k & date & cycle & q & Hk & Hd & Hcy & Hq & He).
  exists (F64.remainder (Date_in_Fraction_of_Year row) c), k, date, cycle, q.
  rewrite nth_error_map, Hi. repeat split; assumption.
Qed.

(** X7.  On an empty table every invocation with a stride other than zero
    returns, with no overlay point and no folded point. *)
Theorem empty_table_empty_views yv n c s :
  rows (df s) = [] -> n <> 0 ->
  exists f vf lbl s' overlay pts,
    _refresh_plots float_repr yv n c s = (Returns (f, vf, lbl), s') /\
    data f = (firstn 1 (data (fig s)) ++ [overlay])%list /\
    data vf = [pts] /\
    x overlay = [] /\ y overlay = [] /\ x pts = [] /\ y pts = [].
Proof.
  intros Hrows Hn. rewrite refresh_eq. cbv zeta. unfold apply_modulo.
  rewrite Hrows.
  assert (Hs : slice_step (@nil Row) n = Returns []).
  { unfold slice_step, slice_length.
    destruct (Z.eqb_spec n 0); [contradiction|].
    destruct (Z.ltb_spec 0 n); reflexivity. }
  rewrite Hs. do 6 eexists. split; [reflexivity|].
  cbn [data]. split; [reflexivity|]. cbn [px_scatter data].
  split; [reflexivity|]. repeat split.
Qed.

End Fold.

(** ** Facts about loading the table *)

Module LoadingFacts.
Import Loading.

Local Close Scope string_scope.
Local Open Scope list_scope.

Lemma split_nonempty sep t : split sep t <> [].
Proof.
  destruct t as [|ch rest]; cbn; [discriminate|].
  destruct (ch =? sep)%N; [discriminate|].
  destruct (split sep rest); discriminate.
Qed.

(** One piece more than there are separators. *)
Lemma split_length sep t :
  List.length (split sep t) = S (count_occ N.eq_dec t sep).
Proof.
  induction t as [|ch rest IH]; [reflexivity|].
  cbn [split count_occ].
  destruct (N.eqb_spec ch sep) as [->|Hne].
  - destruct (N.eq_dec sep sep); [|contradiction]. cbn. now rewrite IH.
  - destruct (N.eq_dec ch sep); [contradiction|].
    destruct (split sep rest) as [|piece pieces] eqn:E.
    + now apply split_nonempty in E.
    + cbn in *. exact IH.
Qed.

(** No piece holds the separator. *)
Lemma split_no_sep sep t : Forall (fun piece => ~ In sep piece) (split sep t).
Proof.
  induction t as [|ch rest IH]; cbn [split].
  - constructor; [intros []|constructor].
  - destruct (N.eqb_spec ch sep) as [->|Hne].
    + constructor; [intros []|exact IH].
    + destruct (split sep rest) as [|piece pieces].
      * constructor; [|constructor]. intros [H|[]]. congruence.
      * inversion IH; subst. constructor; [|assumption].
        intros [H|H]; [congruence|contradiction].
Qed.

(** [split] undoes [join] on pieces free of the separator. *)
Lemma split_join sep pieces :
  pieces <> [] -> Forall (fun piece => ~ In sep piece) pieces ->
  split sep (join sep pieces) = pieces.
Proof.
  assert (Hone : forall piece tail,
             ~ In sep piece ->
             split sep (piece ++ sep :: tail)%list = piece :: split sep tail).
  { induction piece as [|ch piece IH]; intros tail Hni.
    - cbn. now rewrite N.eqb_refl.
    - cbn [app split].
      destruct (N.eqb_spec ch sep) as [->|Hne]; [exfalso; apply Hni; now left|].
      rewrite IH by (intros H; apply Hni; now right). reflexivity. }
  assert (Hlast : forall piece, ~ In sep piece -> split sep piece = [piece]).
  { induction piece as [|ch piece IH]; intros Hni; [reflexivity|].
    cbn [split].
    destruct (N.eqb_spec ch sep) as [->|Hne]; [exfalso; apply Hni; now left|].
    rewrite IH by (intros H; apply Hni; now right). reflexivity. }
  induction pieces as [|piece rest IH]; intros Hne Hall; [contradiction|].
  inversion Hall; subst.
  destruct rest as [|piece' rest'].
  - cbn. now apply Hlast.
  - change (join sep (piece :: piece' :: rest'))
      with (piece ++ sep :: join sep (piece' :: rest'))%list.
    rewrite Hone by assumption.
    rewrite IH; [reflexivity|discriminate|assumption].
Qed.

(** What [lstrip] takes off is a run of blanks, and what it leaves does not
    start with one. *)
Lemma lstrip_spec t :
  exists blanks, t = (blanks ++ lstrip t)%list /\
    Forall (fun ch => is_space ch = true) blanks /\
    forall ch, hd_error (lstrip t) = Some ch -> is_space ch = false.
Proof.
  induction t as [|ch rest (blanks & Heq & Hbl & Hhd)].
  - exists []. repeat split; [constructor|discriminate].
  - cbn [lstrip]. destruct (is_space ch) eqn:Es.
    + exists (ch :: blanks). split; [cbn; now f_equal|].
      split; [now constructor|exact Hhd].
    + exists []. split; [reflexivity|]. split; [constructor|].
      intros ch' H. cbn in H. inversion H; subst. exact Es.
Qed.

Lemma lstrip_blanks blanks t :
  Forall (fun ch => is_space ch = true) blanks ->
  lstrip (blanks ++ t) = lstrip t.
Proof.
  induction 1 as [|ch blanks Hch _ IH]; [reflexivity|].
  cbn. now rewrite Hch.
Qed.

Lemma lstrip_fixed t :
  (forall ch, hd_error t = Some ch -> is_space ch = false) -> lstrip t = t.
Proof.
  destruct t as [|ch rest]; [reflexivity|]. intros H. cbn.
  now rewrite (H ch eq_refl).
Qed.

(** A text is left alone by [strip] exactly when it neither starts nor ends
    with a blank. *)
Lemma strip_fixed_iff t :
  strip t = t <->
  (forall ch, hd_error t = Some ch -> is_space ch = false) /\
  (forall ch, hd_error (rev t) = Some ch -> is_space ch = false).
Proof.
  unfold strip, rstrip. split.
  - intros Hfix.
    destruct (lstrip_spec t) as (b1 & Ht & Hb1 & Hh1).
    destruct (lstrip_spec (rev (lstrip t))) as (b2 & Hr & Hb2 & Hh2).
    assert (Hlen : List.length t = List.length (lstrip (rev (lstrip t)))).
    { rewrite <- Hfix at 1. apply length_rev. }
    assert (Hb1nil : b1 = []).
    { apply (f_equal (@List.length N)) in Ht, Hr.
      rewrite length_app in Ht, Hr. rewrite length_rev in Hr.
      destruct b1; [reflexivity|]. cbn in Ht. lia. }
    assert (Hb2nil : b2 = []).
    { apply (f_equal (@List.length N)) in Ht, Hr.
      rewrite length_app in Ht, Hr. rewrite length_rev in Hr.
      destruct b2; [reflexivity|]. cbn in Hr. lia. }
    subst b1 b2. cbn in Ht, Hr. rewrite <- Ht in Hr, Hh1, Hh2.
    split; [exact Hh1|]. rewrite <- Hr in Hh2. exact Hh2.
  - intros [Hh Hl]. rewrite (lstrip_fixed t Hh), (lstrip_fixed (rev t) Hl).
    apply rev_involutive.
Qed.

(** [strip] takes the blanks around a field away and nothing else. *)
Lemma strip_padded before field after :
  Forall (fun ch => is_space ch = true) before ->
  Forall (fun ch => is_space ch = true) after ->
  strip field = field ->
  strip (before ++ field ++ after) = field.
Proof.
  intros Hb Ha Hf. apply strip_fixed_iff in Hf as [Hh Hl].
  unfold strip, rstrip. rewrite lstrip_blanks by exact Hb.
  destruct field as [|ch field'].
  - cbn [app].
    assert (Hall : forall bl, Forall (fun ch => is_space ch = true) bl ->
                              lstrip bl = []).
    { induction 1 as [|c bl Hc _ IH]; [reflexivity|]. cbn. now rewrite Hc. }
    rewrite (Hall after Ha). reflexivity.
  - rewrite (lstrip_fixed ((ch :: field') ++ after)).
    2:{ intros c Hc. apply Hh. exact Hc. }
    rewrite rev_app_distr, lstrip_blanks by (apply Forall_rev; exact Ha).
    rewrite (lstrip_fixed (rev (ch :: field')) Hl).
    apply rev_involutive.
Qed.

Lemma strip_is_fixed t : strip (strip t) = strip t.
Proof.
  apply strip_fixed_iff. unfold strip, rstrip.
  destruct (lstrip_spec t) as (b1 & Ht & Hb1 & Hh1).
  destruct (lstrip_spec (rev (lstrip t))) as (b2 & Hr & Hb2 & Hh2).
  split.
  - intros ch Hch.
    apply (f_equal (@rev N)) in Hr. rewrite rev_involutive, rev_app_distr in Hr.
    destruct (rev (lstrip (rev (lstrip t)))) as [|c0 r0] eqn:E; [discriminate|].
    cbn in Hch. inversion Hch; subst c0.
    apply Hh1. rewrite Hr. reflexivity.
  - rewrite rev_involutive. exact Hh2.
Qed.

Lemma strip_subset t ch : In ch (strip t) -> In ch t.
Proof.
  unfold strip, rstrip. intros H. apply in_rev in H.
  destruct (lstrip_spec t) as (b1 & Ht & _).
  destruct (lstrip_spec (rev (lstrip t))) as (b2 & Hr & _).
  rewrite Ht. apply in_or_app. right.
  apply in_rev. rewrite Hr. apply in_or_app. now right.
Qed.

(** X12.  The fields read from a row of the reader: one more than the row's
    first field (the line up to its first comma) has semicolons, none
    holding a semicolon, and none starting or ending with a blank (each is
    what [strip] leaves alone). *)
Theorem dflines_fields_clean reader_rows dflines :
  dflines_of reader_rows = Loaded dflines ->
  Forall2
    (fun row fields =>
       exists first others,
         row = first :: others /\
         List.length fields = S (count_occ N.eq_dec first semicolon) /\
         Forall (fun field => strip field = field /\ ~ In semicolon field)
                fields)
    reader_rows dflines.
Proof.
  revert dflines. induction reader_rows as [|row rest IH]; intros dflines H.
  - cbn in H. inversion H. constructor.
  - cbn [dflines_of] in H. destruct row as [|first others]; [discriminate|].
    destruct (dflines_of rest) as [ls|e]; [|discriminate].
    inversion H; subst. constructor; [|now apply IH].
    exists first, others. split; [reflexivity|].
    split; [now rewrite length_map, split_length|].
    apply Forall_map. pose proof (split_no_sep semicolon first) as Hns.
    rewrite Forall_forall in *. intros piece Hp. split.
    + apply strip_is_fixed.
    + intros Hin. apply (Hns piece Hp). now apply strip_subset.
Qed.

(** X13.  Blanks around the fields of a line do not matter: a line made of
    fields that hold no semicolon and neither start nor end with a blank,
    each between two runs of blanks, and joined by semicolons, is read back
    as exactly those fields.  What follows a comma in the line (the later
    fields of the reader's row) is ignored. *)
Theorem padded_line_round_trip (cells : list (pystr * pystr * pystr))
    (others : list pystr) :
  cells <> [] ->
  Forall (fun cell =>
            let '(before, field, after) := cell in
            Forall (fun ch => is_space ch = true) before /\
            Forall (fun ch => is_space ch = true) after /\
            strip field = field /\ ~ In semicolon field) cells ->
  dflines_of [join semicolon (map padded cells) :: others]
  = Loaded [map (fun cell => snd (fst cell)) cells].
Proof.
  intros Hne Hall. cbn [dflines_of]. do 2 f_equal.
  assert (Hsp : forall bl, Forall (fun ch => is_space ch = true) bl ->
                           ~ In semicolon bl).
  { intros bl Hbl Hin. rewrite Forall_forall in Hbl.
    specialize (Hbl _ Hin). discriminate. }
  rewrite split_join.
  - rewrite map_map. apply map_ext_in. intros [[before field] after] Hin.
    rewrite Forall_forall in Hall. specialize (Hall _ Hin).
    destruct Hall as (Hb & Ha & Hf & _). cbn. now apply strip_padded.
  - destruct cells; [contradiction|discriminate].
  - apply Forall_map. rewrite Forall_forall in *.
    intros [[before field] after] Hin. specialize (Hall _ Hin).
    destruct Hall as (Hb & Ha & _ & Hf). cbn. intros H.
    apply in_app_or in H as [H|H]; [now apply (Hsp before)|].
    apply in_app_or in H as [H|H]; [contradiction|now apply (Hsp after)].
Qed.

Lemma dflines_of_blank reader_rows :
  In [] reader_rows -> dflines_of reader_rows = LoadRaises IndexError.
Proof.
  induction reader_rows as [|row rest IH]; intros Hin; [contradiction|].
  cbn [dflines_of]. destruct row as [|first others]; [reflexivity|].
  destruct Hin as [H|H]; [discriminate|]. now rewrite IH.
Qed.

Section Typed.
Variable py_int : pystr -> option Z.
Variable py_float : pystr -> option F64.float.

Lemma as_int64_Some t z :
  as_int64 py_int (Some t) = Some z <->
  py_int t = Some z /\ (- 2 ^ 63 <= z < 2 ^ 63)%Z.
Proof.
  unfold as_int64. destruct (py_int t) as [z'|].
  - destruct (Z.leb_spec (- 2 ^ 63) z') as [Hlo|Hlo],
             (Z.ltb_spec z' (2 ^ 63)) as [Hhi|Hhi]; cbn [andb]; split;
      try (intros E; discriminate);
      try (intros E; inversion E; subst; split; [reflexivity|lia]);
      try (intros [E R]; inversion E; subst; first [reflexivity|lia]).
  - split; [discriminate | intros [E _]; discriminate].
Qed.

Lemma astype_row_pad fields row :
  astype_row py_int py_float (pad 7 fields) = Some row <->
  converts py_int py_float fields row.
Proof.
  split.
  - intros H.
    destruct fields as [|t1 [|t2 [|t3 [|t4 [|t5 [|t6 [|t7 [|t8 more]]]]]]]];
      cbn [pad map List.length Nat.sub repeat app astype_row as_float] in H;
      try discriminate;
      try (cbn in H;
           repeat match type of H with
                  | match ?c with _ => _ end = _ => destruct c
                  end; discriminate).
    destruct (as_int64 py_int (Some t1)) as [v1|] eqn:E1; [|discriminate].
    destruct (as_int64 py_int (Some t2)) as [v2|] eqn:E2; [|discriminate].
    destruct (py_float t3) as [v3|] eqn:E3; [|discriminate].
    destruct (py_float t4) as [v4|] eqn:E4; [|discriminate].
    destruct (py_float t5) as [v5|] eqn:E5; [|discriminate].
    destruct (py_float t6) as [v6|] eqn:E6; [|discriminate].
    destruct (as_int64 py_int (Some t7)) as [v7|] eqn:E7; [|discriminate].
    inversion H; subst; clear H.
    apply as_int64_Some in E1 as [E1 R1], E2 as [E2 R2], E7 as [E7 R7].
    exists t1, t2, t3, t4, t5, t6, t7.
    cbn [Year Month Date_in_Fraction_of_Year Monthly_Mean Monthly_Mean_STD
         Number_of_Observations Definitive].
    destruct R1, R2, R7. repeat split; assumption.
  - intros (t1 & t2 & t3 & t4 & t5 & t6 & t7 & -> & H1 & H2 & H3 & H4 & H5
            & H6 & H7 & R1 & R2 & R7).
    cbn [pad map List.length Nat.sub repeat app astype_row as_float].
    rewrite (proj2 (as_int64_Some t1 _) (conj H1 R1)).
    rewrite (proj2 (as_int64_Some t2 _) (conj H2 R2)).
    rewrite (proj2 (as_int64_Some t7 _) (conj H7 R7)).
    rewrite H3, H4, H5, H6. destruct row; reflexivity.
Qed.

Lemma astype_Loaded table rows :
  astype py_int py_float table = Loaded rows <->
  Forall2 (fun cells row => astype_row py_int py_float cells = Some row)
          table rows.
Proof.
  revert rows. induction table as [|cells rest IH]; intros rows; cbn [astype].
  - split; intros H; inversion H; [constructor|reflexivity].
  - split.
    + intros H. destruct (astype_row py_int py_float cells) as [row|] eqn:E;
        [|discriminate].
      destruct (astype py_int py_float rest) as [rows'|e]; [|discriminate].
      inversion H; subst. constructor; [exact E|]. now apply IH.
    + intros H. inversion H as [|? row ? rows' Hrow Hrest]; subst.
      rewrite Hrow. apply IH in Hrest. now rewrite Hrest.
Qed.

Lemma DataFrame_of_Loaded dflines table :
  DataFrame_of dflines = Loaded table ->
  table = map (pad 7) dflines.
Proof.
  unfold DataFrame_of. destruct dflines as [|l ls].
  - intros H. inversion H. reflexivity.
  - destruct (Nat.eqb_spec (list_max (map (@List.length pystr) (l :: ls))) 7)
      as [->|]; [|discriminate].
    intros H. now inversion H.
Qed.

Lemma list_max_seven (dflines : list (list pystr)) :
  Forall (fun fields => List.length fields = 7%nat) dflines ->
  list_max (map (@List.length pystr) dflines)
  = match dflines with [] => 0%nat | _ => 7%nat end.
Proof.
  unfold list_max.
  induction 1 as [|fields rest Hf _ IH]; [reflexivity|].
  cbn [map fold_right]. rewrite Hf, IH. destruct rest; reflexivity.
Qed.

Lemma DataFrame_of_seven dflines :
  Forall (fun fields => List.length fields = 7%nat) dflines ->
  DataFrame_of dflines = Loaded (map (pad 7) dflines).
Proof.
  intros Hall. unfold DataFrame_of. destruct dflines as [|l ls]; [reflexivity|].
  rewrite (list_max_seven _ Hall). reflexivity.
Qed.

(** X14.  A blank line aborts the load: when the reader yields an empty row,
    [row[0]] raises [IndexError], whatever the other lines hold. *)
Theorem blank_line_raises_IndexError reader_rows :
  In [] reader_rows ->
  load py_int py_float reader_rows = LoadRaises IndexError.
Proof.
  intros Hin. unfold load. now rewrite dflines_of_blank.
Qed.

Lemma load_Loaded_converts reader_rows rows :
  load py_int py_float reader_rows = Loaded rows ->
  exists dflines,
    dflines_of reader_rows = Loaded dflines /\
    Forall2 (converts py_int py_float) dflines rows.
Proof.
  unfold load.
  destruct (dflines_of reader_rows) as [dflines|e]; [|discriminate].
  destruct (DataFrame_of dflines) as [table|e] eqn:Et; [|discriminate].
  apply DataFrame_of_Loaded in Et. subst table.
  intros H. apply astype_Loaded in H.
  exists dflines. split; [reflexivity|].
  revert rows H. induction dflines as [|fields rest IH]; intros rows H;
    inversion H; subst; constructor.
  - now apply astype_row_pad.
  - now apply IH.
Qed.

(** X15.  The table loads exactly when no line is blank and every line has
    seven fields, of which the first, second and last are accepted by [int]
    and fit in 64 bits and the four between are accepted by [float]; the
    rows are then the converted lines, one per line and in the order of the
    file. *)
Theorem load_succeeds_iff reader_rows rows :
  load py_int py_float reader_rows = Loaded rows <->
  exists dflines,
    dflines_of reader_rows = Loaded dflines /\
    Forall2 (converts py_int py_float) dflines rows.
Proof.
  split; [apply load_Loaded_converts|].
  intros (dflines & Hd & Hall). unfold load. rewrite Hd. clear Hd.
  rewrite DataFrame_of_seven.
  - apply astype_Loaded.
    induction Hall as [|fields row rest rows' Hc _ IH]; constructor.
    + now apply astype_row_pad.
    + exact IH.
  - induction Hall as [|fields row rest rows' Hc _ IH]; constructor.
    + destruct Hc as (? & ? & ? & ? & ? & ? & ? & -> & _). reflexivity.
    + exact IH.
Qed.

(** X16.  A line with fewer or more than seven fields makes the load fail,
    also when every other line is well formed. *)
Theorem wrong_field_count_fails reader_rows dflines fields :
  dflines_of reader_rows = Loaded dflines ->
  In fields dflines -> List.length fields <> 7%nat ->
  exists e, load py_int py_float reader_rows = LoadRaises e.
Proof.
  intros Hd Hin Hlen.
  destruct (load py_int py_float reader_rows) as [rows|e] eqn:E;
    [|now exists e].
  exfalso. apply load_Loaded_converts in E as (dflines' & Hd' & Hall).
  rewrite Hd in Hd'. inversion Hd'; subst dflines'.
  clear -Hall Hin Hlen. induction Hall as [|f row rest rows' Hc _ IH].
  - contradiction.
  - destruct Hin as [<-|Hin]; [|now apply IH].
    destruct Hc as (? & ? & ? & ? & ? & ? & ? & -> & _). now apply Hlen.
Qed.

End Typed.

End LoadingFacts.

(** ** Facts about the label *)

Module LabelFacts.

Lemma prefix_append needle rest : prefix needle (needle ++ rest) = true.
Proof.
  induction needle as [|ch needle IH]; cbn.
  - now destruct rest.
  - destruct (Ascii.ascii_dec ch ch); [exact IH|contradiction].
Qed.

(** A text occurs in whatever it is put into the middle of. *)
Lemma contains_middle before needle rest :
  contains needle (before ++ needle ++ rest) = true.
Proof.
  unfold contains.
  induction before as [|ch before IH]; cbn [append].
  - destruct (needle ++ rest) as [|b t] eqn:E.
    + destruct needle; [reflexivity|discriminate].
    + cbn [index]. rewrite <- E, prefix_append. reflexivity.
  - cbn [index].
    destruct (prefix needle (String ch (before ++ needle ++ rest)));
      [reflexivity|].
    destruct (index 0 needle (before ++ needle ++ rest));
      [reflexivity|discriminate].
Qed.

Lemma append_assoc3 (a b c : string) : (a ++ b ++ c = (a ++ b) ++ c)%string.
Proof. induction a as [|ch a IH]; cbn; [reflexivity|now rewrite IH]. Qed.

End LabelFacts.

Section Label.
Variable float_repr : F64.float -> string.

(** X11.  Whatever the two bounds of the window are, and however a float is
    written, the label of an invocation that returns holds the text of the
    first bound and the text of the second. *)
Theorem label_contains_both_bounds lo hi n c s :
  n <> 0 ->
  exists f vf lbl s',
    _refresh_plots float_repr (lo, hi) n c s = (Returns (f, vf, lbl), s') /\
    contains (str float_repr lo) lbl = true /\
    contains (str float_repr hi) lbl = true.
Proof.
  intros Hn. rewrite refresh_eq. cbv zeta.
  destruct (SliceFacts.slice_step_returns (rows (df s)) n Hn) as (sm & ->).
  do 4 eexists. split; [reflexivity|]. cbn [fst snd]. split.
  - apply LabelFacts.contains_middle.
  - rewrite (LabelFacts.append_assoc3 _ (str float_repr lo)).
    rewrite (LabelFacts.append_assoc3 _ " to ").
    apply LabelFacts.contains_middle.
Qed.

End Label.

(** ** The further facts at concrete inputs *)

(** X4 at the far ends of the two sliders. *)
Lemma slider_events_return_witness :
  on_smoothness_slider 25 = true /\
  on_cycle_len_slider (F64.of_Z 100) = true /\
  exists f vf lbl s',
    _refresh_plots Sample.repr_whole (PyInt 1749, PyInt 2022) 25
      (F64.of_Z 100) (loaded Sample.first_rows) = (Returns (f, vf, lbl), s').
Proof.
  split; [reflexivity|]. split; [reflexivity|].
  destruct (slider_events_return Sample.repr_whole (PyInt 1749, PyInt 2022)
              25 (F64.of_Z 100) (loaded Sample.first_rows) eq_refl eq_refl)
    as (f & vf & lbl & s' & _ & _ & H & _).
  now exists f, vf, lbl, s'.
Defined.

(** X5 on the first rows, whose dates increase, with stride 2. *)
Lemma overlay_keeps_date_order_witness :
  2 <> 0 /\
  Sorted.StronglySorted (fun a b => F64.isless a b = true)
    (map Date_in_Fraction_of_Year (rows (df (loaded Sample.first_rows)))) /\
  exists f vf lbl s' overlay,
    _refresh_plots Sample.repr_whole (PyInt 1749, PyInt 2022) 2 (F64.of_Z 11)
      (loaded Sample.first_rows) = (Returns (f, vf, lbl), s') /\
    data f = (firstn 1 (data (fig (loaded Sample.first_rows)))
              ++ [overlay])%list /\
    Sorted.StronglySorted (fun a b => F64.isless a b = true) (x overlay).
Proof.
  assert (Hs : Sorted.StronglySorted (fun a b => F64.isless a b = true)
                 (map Date_in_Fraction_of_Year
                    (rows (df (loaded Sample.first_rows))))).
  { repeat constructor. }
  split; [lia|]. split; [exact Hs|].
  destruct (overlay_keeps_date_order Sample.repr_whole
              (fun a b => F64.isless a b = true) (PyInt 1749, PyInt 2022) 2
              (F64.of_Z 11) (loaded Sample.first_rows) ltac:(lia) Hs)
    as (f & vf & lbl & s' & overlay & H1 & H2 & H3 & _).
  exists f, vf, lbl, s', overlay. repeat split; try assumption.
  apply H3. lia.
Defined.

(** X6 on the three first rows with stride 5. *)
Lemma stride_beyond_table_length_witness :
  rows (df (loaded Sample.first_rows)) <> [] /\
  Z.of_nat (List.length (rows (df (loaded Sample.first_rows)))) <= Z.abs 5 /\
  exists f vf lbl s' overlay row,
    _refresh_plots Sample.repr_whole (PyInt 1749, PyInt 2022) 5 (F64.of_Z 11)
      (loaded Sample.first_rows) = (Returns (f, vf, lbl), s') /\
    x overlay = [Date_in_Fraction_of_Year row] /\
    nth_error Sample.first_rows 0 = Some row.
Proof.
  assert (Hne : rows (df (loaded Sample.first_rows)) <> []) by discriminate.
  assert (Hle : Z.of_nat (List.length (rows (df (loaded Sample.first_rows))))
                <= Z.abs 5) by (cbn; lia).
  split; [exact Hne|]. split; [exact Hle|].
  destruct (stride_beyond_table_length Sample.repr_whole
              (PyInt 1749, PyInt 2022) 5 (F64.of_Z 11)
              (loaded Sample.first_rows) Hne Hle)
    as (f & vf & lbl & s' & overlay & row & H1 & _ & H3 & _ & H5).
  exists f, vf, lbl, s', overlay, row. repeat split; assumption.
Defined.

(** X7 on the store loaded from an empty file. *)
Lemma empty_table_empty_views_witness :
  rows (df (loaded [])) = [] /\ 5 <> 0 /\
  exists f vf lbl s',
    _refresh_plots Sample.repr_whole (PyInt 1749, PyInt 2022) 5 (F64.of_Z 11)
      (loaded []) = (Returns (f, vf, lbl), s').
Proof.
  split; [reflexivity|]. split; [lia|].
  destruct (empty_table_empty_views Sample.repr_whole (PyInt 1749, PyInt 2022)
              5 (F64.of_Z 11) (loaded []) eq_refl ltac:(lia))
    as (f & vf & lbl & s' & _ & _ & H & _).
  now exists f, vf, lbl, s'.
Defined.

(** X8 on the first rows with the default cycle length. *)
Lemma fold_phase_is_exact_witness :
  5 <> 0 /\ F64.finite_pos (F64.of_Z 11) = true /\
  exists f vf lbl s',
    _refresh_plots Sample.repr_whole (PyInt 1749, PyInt 2022) 5 (F64.of_Z 11)
      (loaded Sample.first_rows) = (Returns (f, vf, lbl), s').
Proof.
  split; [lia|]. split; [reflexivity|].
  destruct (fold_phase_is_exact Sample.repr_whole (PyInt 1749, PyInt 2022) 5
              (F64.of_Z 11) (loaded Sample.first_rows) ltac:(lia) eq_refl)
    as (f & vf & lbl & s' & _ & H & _).
  now exists f, vf, lbl, s'.
Defined.

(** X9 on the dates 1760.0 and 1749.0, one cycle of 11.0 apart. *)
Lemma remainder_periodic_witness :
  exists q1 q2,
    F64.to_Q (F64.remainder (F64.of_Z 1760) (F64.of_Z 11)) = Some q1 /\
    F64.to_Q (F64.remainder (F64.of_Z 1749) (F64.of_Z 11)) = Some q2 /\
    (q1 == q2)%Q.
Proof.
  refine (FoldFacts.remainder_periodic (F64.of_Z 1760) (F64.of_Z 1749)
            (F64.of_Z 11) _ _ _ 1 eq_refl eq_refl eq_refl eq_refl eq_refl
            eq_refl _).
  vm_compute. reflexivity.
Defined.

(** X10 on a table whose only row has no date. *)
Lemma nonfinite_dates_fold_to_nan_witness :
  5 <> 0 /\
  exists f vf lbl s' pts,
    _refresh_plots Sample.repr_whole (PyInt 1749, PyInt 2022) 5 (F64.of_Z 11)
      (loaded [SampleText.undated_row]) = (Returns (f, vf, lbl), s') /\
    data vf = [pts] /\
    nth_error (x pts) 0 = Some F64.nan.
Proof.
  split; [lia|].
  destruct (nonfinite_dates_fold_to_nan Sample.repr_whole
              (PyInt 1749, PyInt 2022) 5 (F64.of_Z 11)
              (loaded [SampleText.undated_row]) ltac:(lia))
    as (f & vf & lbl & s' & pts & H1 & H2 & H3).
  exists f, vf, lbl, s', pts. repeat split; try assumption.
  apply (H3 0%nat SampleText.undated_row eq_refl). now left.
Defined.

(** X11 on a window given as one integer and one float. *)
Lemma label_contains_both_bounds_witness :
  5 <> 0 /\
  exists f vf lbl s',
    _refresh_plots Sample.repr_whole (PyInt 1800, PyFloat (F64.of_Z 1900)) 5
      (F64.of_Z 11) (loaded Sample.first_rows) = (Returns (f, vf, lbl), s') /\
    contains "1800" lbl = true /\ contains "1900.0" lbl = true.
Proof.
  split; [lia|].
  apply (label_contains_both_bounds Sample.repr_whole (PyInt 1800)
           (PyFloat (F64.of_Z 1900)) 5 (F64.of_Z 11)
           (loaded Sample.first_rows)).
  lia.
Defined.

(** The first three lines of the file load to the three rows used above. *)
Example load_first_lines :
  Loading.load SampleText.int_of_digits SampleText.float_of_decimal
    SampleText.first_lines = Loading.Loaded Sample.first_rows.
Proof. vm_compute. reflexivity. Qed.

(** X12 on the first three lines. *)
Lemma dflines_fields_clean_witness :
  exists dflines,
    Loading.dflines_of SampleText.first_lines = Loading.Loaded dflines /\
    Forall (fun fields =>
              Forall (fun field => Loading.strip field = field /\
                                   ~ In Loading.semicolon field) fields)
           dflines.
Proof.
  destruct (Loading.dflines_of SampleText.first_lines) as [dflines|e] eqn:E.
  2:{ vm_compute in E. discriminate. }
  exists dflines. split; [reflexivity|].
  pose proof (LoadingFacts.dflines_fields_clean _ _ E) as H.
  clear E. induction H as [|row fields rr ls Hrow _ IH]; constructor.
  - destruct Hrow as (first & others & _ & _ & Hclean). exact Hclean.
  - exact IH.
Defined.

(** X13 on a line of two padded fields followed by a comma and more. *)
Lemma padded_line_round_trip_witness :
  Loading.dflines_of
    [ Loading.join Loading.semicolon
        (map Loading.padded
           [ ([32%N; 32%N], SampleText.text "96.7", []);
             ([9%N], SampleText.text "-1", [32%N]) ])
      :: [SampleText.text "ignored"] ]
  = Loading.Loaded [[SampleText.text "96.7"; SampleText.text "-1"]].
Proof.
  apply (LoadingFacts.padded_line_round_trip
           [ ([32%N; 32%N], SampleText.text "96.7", []);
             ([9%N], SampleText.text "-1", [32%N]) ]
           [SampleText.text "ignored"]).
  - discriminate.
  - repeat constructor; try reflexivity;
      intros H; cbn in H; repeat (destruct H as [H|H]; [discriminate|]);
      exact H.
Defined.

(** X14 on the first three lines followed by a blank one. *)
Lemma blank_line_raises_IndexError_witness :
  In [] (SampleText.first_lines ++ [[]])%list /\
  Loading.load SampleText.int_of_digits SampleText.float_of_decimal
    (SampleText.first_lines ++ [[]])%list
  = Loading.LoadRaises Loading.IndexError.
Proof.
  assert (Hin : In [] (SampleText.first_lines ++ [[]])%list).
  { apply in_or_app. right. now left. }
  split; [exact Hin|].
  now apply LoadingFacts.blank_line_raises_IndexError.
Defined.

(** X16 on a file whose second line lacks its last field. *)
Lemma wrong_field_count_fails_witness :
  exists e,
    Loading.load SampleText.int_of_digits SampleText.float_of_decimal
      [ [SampleText.text "1749;01;1749.042;  96.7; -1.0;   -1;1"];
        [SampleText.text "1749;02;1749.123; 104.3; -1.0;   -1"] ]
    = Loading.LoadRaises e.
Proof.
  eapply (LoadingFacts.wrong_field_count_fails SampleText.int_of_digits
            SampleText.float_of_decimal
            [ [SampleText.text "1749;01;1749.042;  96.7; -1.0;   -1;1"];
              [SampleText.text "1749;02;1749.123; 104.3; -1.0;   -1"] ]).
  - vm_compute. reflexivity.
  - right. left. reflexivity.
  - vm_compute. discriminate.
Defined.
